(** * MoqNativePlugin: the client registry, the session and its worker

    A shallow embedding of [src/moq-unity/NativePlugin/MoqNativePlugin.cpp]
    and of the handle type of [MoqNativePlugin.h].

    Every method of [MoqClientImpl] takes [mutex_] on entry and keeps it to
    its return, and the worker thread touches the shared members only
    inside a [lock_guard] block.  A session therefore evolves by atomic
    critical sections, and its behaviours are the interleavings of those
    sections: one [Event] per section.

    [int] is 32 bits wide and signed arithmetic wraps around (two's
    complement); bytes are integers in [0, 255].  The last part of the
    definitions records which statements run under which of the two
    mutexes. *)

From Stdlib Require Import ZArith Lia.
From stdpp Require Import gmap list strings sorting.

Local Open Scope Z_scope.

(** ** Machine integers *)

(** Two's complement wrap-around of a [bits]-wide signed integer. *)
Definition wrap_signed (bits z : Z) : Z :=
  (z + 2 ^ (bits - 1)) mod 2 ^ bits - 2 ^ (bits - 1).

(** C++ [int] (32 bits on the supported targets). *)
Definition to_int (z : Z) : Z := wrap_signed 32 z.

(** [int64_t]. *)
Definition to_int64 (z : Z) : Z := wrap_signed 64 z.

(** [static_cast<uint8_t>]. *)
Definition to_uint8 (z : Z) : Z := z mod 256.

Definition INT_MAX : Z := 2147483647.
Definition INT_MIN : Z := -2147483648.

(** ** Frames *)

(** [struct DecodedFrame]. *)
Record DecodedFrame := mkDecodedFrame {
  width : Z;
  height : Z;
  data : list Z;
  timestamp : Z
}.

(** The member initialisers of [DecodedFrame]. *)
Definition DecodedFrame_default : DecodedFrame :=
  {| width := 0; height := 0; data := []; timestamp := 0 |}.

(** [std::vector::empty]. *)
Definition vector_empty {A} (v : list A) : bool :=
  match v with
  | [] => true
  | _ :: _ => false
  end.

(** [std::vector<uint8_t>::resize] on a vector of bytes: new elements are
    value-initialised. *)
Definition vector_resize (v : list Z) (n : Z) : list Z :=
  take (Z.to_nat n) v ++ replicate (Z.to_nat n - length v)%nat 0.

(** [memcpy (dst, src, n)], on a destination of at least [n] bytes. *)
Definition memcpy (dst src : list Z) (n : Z) : list Z :=
  take (Z.to_nat n) src ++ drop (Z.to_nat n) dst.

(** The body of the inner loop of [workerFunction] (lines 127-137): the four
    bytes of pixel [(x, y)]. *)
Definition write_pixel (frame_width frameCount y x : Z) (d : list Z) : list Z :=
  let idx := to_int (to_int (to_int (y * frame_width) + x) * 4) in
  let r := to_uint8 (Z.rem (to_int (x + frameCount)) 255) in
  let g := to_uint8 (Z.rem (to_int (y + to_int (frameCount * 2))) 255) in
  let b := to_uint8 (Z.rem (to_int (to_int (x + y) + to_int (frameCount * 3))) 255) in
  let d := <[Z.to_nat idx := r]> d in
  let d := <[Z.to_nat (to_int (idx + 1)) := g]> d in
  let d := <[Z.to_nat (to_int (idx + 2)) := b]> d in
  <[Z.to_nat (to_int (idx + 3)) := 255]> d.

(** The two nested [for] loops (lines 125-139), over the frame's own
    [width] and [height]. *)
Definition fill_gradient (frame_width frame_height frameCount : Z)
    (d : list Z) : list Z :=
  foldl (fun d y =>
           foldl (fun d x => write_pixel frame_width frameCount y x d)
                 d (seqZ 0 frame_width))
        d (seqZ 0 frame_height).

(** Lines 116-139: the test frame generated for iteration [frameCount].
    The timestamp is computed in [int] and then stored in the [int64_t]
    member. *)
Definition generate_frame (frameCount : Z) : DecodedFrame :=
  let frame_width := 640 in
  let frame_height := 480 in
  let frame_timestamp := to_int64 (to_int (frameCount * 16667)) in
  let d := vector_resize [] (to_int (to_int (frame_width * frame_height) * 4)) in
  {| width := frame_width;
     height := frame_height;
     data := fill_gradient frame_width frame_height frameCount d;
     timestamp := frame_timestamp |}.

(** ** The session *)

(** Where the worker thread stands between two of its critical sections.
    [frameCount] is a local of [workerFunction], declared once the
    connection is up. *)
Inductive WorkerThread :=
| AtStart
| Connecting
| InLoop (frameCount : Z)
| Finished.

(** The members of [class MoqClientImpl]; [workerThread_] is the control
    state of the thread the constructor starts. *)
Record MoqClientImpl := mkMoqClientImpl {
  serverUrl_ : string;
  streamPath_ : string;
  targetLatencyMs_ : Z;
  workerThread_ : WorkerThread;
  running_ : bool;
  connectionStatus_ : Z;
  frameQueue_ : list DecodedFrame;
  currentFrame_ : DecodedFrame;
  hasNewFrame_ : bool
}.

Definition set_workerThread (w : WorkerThread) (c : MoqClientImpl) :=
  mkMoqClientImpl (serverUrl_ c) (streamPath_ c) (targetLatencyMs_ c) w
    (running_ c) (connectionStatus_ c) (frameQueue_ c) (currentFrame_ c)
    (hasNewFrame_ c).

Definition set_running (b : bool) (c : MoqClientImpl) :=
  mkMoqClientImpl (serverUrl_ c) (streamPath_ c) (targetLatencyMs_ c)
    (workerThread_ c) b (connectionStatus_ c) (frameQueue_ c)
    (currentFrame_ c) (hasNewFrame_ c).

Definition set_connectionStatus (s : Z) (c : MoqClientImpl) :=
  mkMoqClientImpl (serverUrl_ c) (streamPath_ c) (targetLatencyMs_ c)
    (workerThread_ c) (running_ c) s (frameQueue_ c) (currentFrame_ c)
    (hasNewFrame_ c).

Definition set_frameQueue (q : list DecodedFrame) (c : MoqClientImpl) :=
  mkMoqClientImpl (serverUrl_ c) (streamPath_ c) (targetLatencyMs_ c)
    (workerThread_ c) (running_ c) (connectionStatus_ c) q (currentFrame_ c)
    (hasNewFrame_ c).

Definition set_currentFrame (f : DecodedFrame) (c : MoqClientImpl) :=
  mkMoqClientImpl (serverUrl_ c) (streamPath_ c) (targetLatencyMs_ c)
    (workerThread_ c) (running_ c) (connectionStatus_ c) (frameQueue_ c) f
    (hasNewFrame_ c).

Definition set_hasNewFrame (b : bool) (c : MoqClientImpl) :=
  mkMoqClientImpl (serverUrl_ c) (streamPath_ c) (targetLatencyMs_ c)
    (workerThread_ c) (running_ c) (connectionStatus_ c) (frameQueue_ c)
    (currentFrame_ c) b.

(** The constructor: the initialiser list, the default member
    initialisers, and the worker thread started but not yet run. *)
Definition MoqClientImpl_new (serverUrl streamPath : string)
    (targetLatencyMs : Z) : MoqClientImpl :=
  {| serverUrl_ := serverUrl;
     streamPath_ := streamPath;
     targetLatencyMs_ := targetLatencyMs;
     workerThread_ := AtStart;
     running_ := true;
     connectionStatus_ := 0;
     frameQueue_ := [];
     currentFrame_ := DecodedFrame_default;
     hasNewFrame_ := false |}.

(** The first block of the destructor: [running_ = false] under the lock.
    The [join] that follows lets the worker run to its [break]. *)
Definition destructor_stop (c : MoqClientImpl) : MoqClientImpl :=
  set_running false c.

(** [MoqClientImpl::update]. *)
Definition update (c : MoqClientImpl) : bool * MoqClientImpl :=
  let c :=
    match frameQueue_ c with
    | front :: rest =>
        set_hasNewFrame true (set_frameQueue rest (set_currentFrame front c))
    | [] => c
    end in
  (connectionStatus_ c >=? 0, c).

(** [MoqClientImpl::getFrameInfo]: the two references come in with the
    caller's values and go out written or untouched. *)
Definition getFrameInfo (c : MoqClientImpl) (w h : Z) : bool * Z * Z :=
  if hasNewFrame_ c
  then (true, width (currentFrame_ c), height (currentFrame_ c))
  else (false, w, h).

(** [MoqClientImpl::getFrameData]: the result, the caller's buffer after
    the call, and the session after the call. *)
Definition getFrameData (c : MoqClientImpl) (buffer : list Z)
    (bufferSize : Z) : bool * list Z * MoqClientImpl :=
  if hasNewFrame_ c && negb (vector_empty (data (currentFrame_ c))) then
    let dataSize := to_int (Z.of_nat (length (data (currentFrame_ c)))) in
    if bufferSize >=? dataSize
    then (true, memcpy buffer (data (currentFrame_ c)) dataSize,
          set_hasNewFrame false c)
    else (false, buffer, c)
  else (false, buffer, c).

(** [MoqClientImpl::getConnectionStatus]. *)
Definition getConnectionStatus (c : MoqClientImpl) : Z :=
  connectionStatus_ c.

(** [std::queue::push] behind the size test of lines 142-144. *)
Definition push_if_room (frame : DecodedFrame) (c : MoqClientImpl) :=
  if (length (frameQueue_ c) <? 5)%nat
  then set_frameQueue (frameQueue_ c ++ [frame]) c
  else c.

(** [MoqClientImpl::workerFunction], one critical section at a time: the
    two status writes, then one loop iteration per step ([frameCount++]
    touches only the thread's local). *)
Definition workerFunction_step (c : MoqClientImpl) : MoqClientImpl :=
  match workerThread_ c with
  | AtStart => set_workerThread Connecting (set_connectionStatus 1 c)
  | Connecting => set_workerThread (InLoop 0) (set_connectionStatus 2 c)
  | InLoop frameCount =>
      if negb (running_ c) then set_workerThread Finished c
      else
        let frame := generate_frame frameCount in
        set_workerThread (InLoop (to_int (frameCount + 1)))
          (push_if_room frame c)
  | Finished => c
  end.

(** ** Interleavings of one session *)

(** One event per critical section on [mutex_]: a step of the worker
    thread, a call of a method from the host, or the destructor's stop
    request. *)
Inductive Event :=
| EWorker
| EUpdate
| EGetFrameInfo (w h : Z)
| EGetFrameData (buffer : list Z) (bufferSize : Z)
| EGetConnectionStatus
| EDestructorStop.

#[global] Instance Event_eq_dec : EqDecision Event.
Proof. solve_decision. Defined.

Definition step (e : Event) (c : MoqClientImpl) : MoqClientImpl :=
  match e with
  | EWorker => workerFunction_step c
  | EUpdate => snd (update c)
  | EGetFrameInfo _ _ => c
  | EGetFrameData buffer bufferSize => snd (getFrameData c buffer bufferSize)
  | EGetConnectionStatus => c
  | EDestructorStop => destructor_stop c
  end.

(** The events are run oldest first. *)
Definition run (tr : list Event) (c : MoqClientImpl) : MoqClientImpl :=
  foldl (fun c e => step e c) c tr.

(** The states a session can be in: any interleaving from a fresh one. *)
Inductive reachable : MoqClientImpl -> Prop :=
| reachable_new serverUrl streamPath targetLatencyMs :
    reachable (MoqClientImpl_new serverUrl streamPath targetLatencyMs)
| reachable_step e c :
    reachable c -> reachable (step e c).

(** The frames the worker pushed during a run, oldest first. *)
Fixpoint pushed (tr : list Event) (c : MoqClientImpl) : list DecodedFrame :=
  match tr with
  | [] => []
  | e :: tr =>
      match e, workerThread_ c with
      | EWorker, InLoop frameCount =>
          if running_ c && (length (frameQueue_ c) <? 5)%nat
          then generate_frame frameCount :: pushed tr (step e c)
          else pushed tr (step e c)
      | _, _ => pushed tr (step e c)
      end
  end.

(** The frames [update] moved into the current-frame slot during a run,
    oldest first. *)
Fixpoint drained (tr : list Event) (c : MoqClientImpl) : list DecodedFrame :=
  match tr with
  | [] => []
  | e :: tr =>
      match e, frameQueue_ c with
      | EUpdate, front :: _ => front :: drained tr (step e c)
      | _, _ => drained tr (step e c)
      end
  end.

(** ** The registry and the exported functions *)

(** The globals [g_clients] and [g_nextClientId]; a [MoqClientHandle] is
    an [int]. *)
Record Plugin := mkPlugin {
  g_clients : gmap Z MoqClientImpl;
  g_nextClientId : Z
}.

Definition Plugin_init : Plugin :=
  {| g_clients := ∅; g_nextClientId := 1 |}.

Definition set_clients (m : gmap Z MoqClientImpl) (p : Plugin) : Plugin :=
  {| g_clients := m; g_nextClientId := g_nextClientId p |}.

(** [MoqCreateClient]. *)
Definition MoqCreateClient (p : Plugin) (serverUrl streamPath : string)
    (targetLatencyMs : Z) : Z * Plugin :=
  let handle := g_nextClientId p in
  let client := MoqClientImpl_new serverUrl streamPath targetLatencyMs in
  (handle,
   {| g_clients := <[handle := client]> (g_clients p);
      g_nextClientId := to_int (g_nextClientId p + 1) |}).

(** [MoqDestroyClient]: erasing the entry runs the destructor, which stops
    and joins the worker before the session is freed. *)
Definition MoqDestroyClient (p : Plugin) (client : Z) : Plugin :=
  match g_clients p !! client with
  | Some _ => set_clients (delete client (g_clients p)) p
  | None => p
  end.

(** [MoqUpdateClient]. *)
Definition MoqUpdateClient (p : Plugin) (client : Z) : bool * Plugin :=
  match g_clients p !! client with
  | Some c =>
      let '(r, c') := update c in
      (r, set_clients (<[client := c']> (g_clients p)) p)
  | None => (false, p)
  end.

(** [MoqGetFrameInfo]: [w] and [h] are the values behind the two pointers
    before the call. *)
Definition MoqGetFrameInfo (p : Plugin) (client : Z) (w h : Z)
    : bool * Z * Z * Plugin :=
  match g_clients p !! client with
  | Some c => (getFrameInfo c w h, p)
  | None => (false, w, h, p)
  end.

(** [MoqGetFrameData]: [buffer] is the memory behind [data] before the
    call. *)
Definition MoqGetFrameData (p : Plugin) (client : Z) (buffer : list Z)
    (bufferSize : Z) : bool * list Z * Plugin :=
  match g_clients p !! client with
  | Some c =>
      let '(r, buffer', c') := getFrameData c buffer bufferSize in
      (r, buffer', set_clients (<[client := c']> (g_clients p)) p)
  | None => (false, buffer, p)
  end.

(** [MoqGetConnectionStatus]. *)
Definition MoqGetConnectionStatus (p : Plugin) (client : Z) : Z * Plugin :=
  match g_clients p !! client with
  | Some c => (getConnectionStatus c, p)
  | None => (-1, p)
  end.


(** ** Interleavings of the whole plugin *)

(** A call of an exported function by the host, or a step of the worker
    of a registered session. *)
Inductive Call :=
| CallCreate (serverUrl streamPath : string) (targetLatencyMs : Z)
| CallDestroy (client : Z)
| CallUpdate (client : Z)
| CallGetFrameInfo (client w h : Z)
| CallGetFrameData (client : Z) (buffer : list Z) (bufferSize : Z)
| CallGetConnectionStatus (client : Z)
| CallWorker (client : Z).

Definition plugin_step (call : Call) (p : Plugin) : Plugin :=
  match call with
  | CallCreate serverUrl streamPath targetLatencyMs =>
      snd (MoqCreateClient p serverUrl streamPath targetLatencyMs)
  | CallDestroy client => MoqDestroyClient p client
  | CallUpdate client => snd (MoqUpdateClient p client)
  | CallGetFrameInfo client w h => snd (MoqGetFrameInfo p client w h)
  | CallGetFrameData client buffer bufferSize =>
      snd (MoqGetFrameData p client buffer bufferSize)
  | CallGetConnectionStatus client => snd (MoqGetConnectionStatus p client)
  | CallWorker client =>
      set_clients (alter workerFunction_step client (g_clients p)) p
  end.

(** The handles [MoqCreateClient] returns during a run of calls, oldest
    call first. *)
Fixpoint returned_handles (calls : list Call) (p : Plugin) : list Z :=
  match calls with
  | [] => []
  | call :: calls =>
      match call with
      | CallCreate _ _ _ =>
          g_nextClientId p :: returned_handles calls (plugin_step call p)
      | _ => returned_handles calls (plugin_step call p)
      end
  end.

Definition plugin_run (calls : list Call) (p : Plugin) : Plugin :=
  foldl (fun p call => plugin_step call p) p calls.

(** ** Invariants *)

(** A frame as the worker makes them. *)
Definition produced (f : DecodedFrame) : Prop :=
  exists frameCount, f = generate_frame frameCount.

(** The status the worker has written by the time it stands at a given
    point. *)
Definition status_at (w : WorkerThread) : Z :=
  match w with
  | AtStart => 0
  | Connecting => 1
  | InLoop _ | Finished => 2
  end.

Record session_inv (c : MoqClientImpl) : Prop := {
  inv_queue_bound : (length (frameQueue_ c) <= 5)%nat;
  inv_queue_produced : Forall produced (frameQueue_ c);
  inv_current_produced : hasNewFrame_ c = true -> produced (currentFrame_ c);
  inv_status : connectionStatus_ c = status_at (workerThread_ c)
}.

(** ** Sample states *)

(** A session whose worker has connected and produced one frame, and whose
    host has polled once: the frame sits unread in the current-frame slot
    and the queue is empty again. *)
Definition polled_session : MoqClientImpl :=
  run [EWorker; EWorker; EWorker; EUpdate]
      (MoqClientImpl_new "localhost" "stream" 100).

(** A session whose worker has filled the queue while the host never
    polled. *)
Definition saturated_session : MoqClientImpl :=
  run [EWorker; EWorker; EWorker; EWorker; EWorker; EWorker; EWorker]
      (MoqClientImpl_new "localhost" "stream" 100).

(** The registry after one [MoqCreateClient]: handle 1 is registered. *)
Definition one_client : Plugin :=
  snd (MoqCreateClient Plugin_init "localhost" "stream" 100).

(** The registry once the worker of client 1 has connected and queued its
    first frame, and a second client has been created. *)
Definition streaming_client : Plugin :=
  plugin_run [CallCreate "localhost" "stream" 100; CallWorker 1;
              CallWorker 1; CallWorker 1; CallCreate "other" "stream" 50]
    Plugin_init.

(** A caller's buffer of one full frame, zeroed. *)
Definition zero_buffer : list Z := replicate (Z.to_nat 1228800) 0.


(** ** Timestamps *)

Definition strictly_increasing (l : list Z) : Prop :=
  forall i j a b,
    (i < j)%nat -> l !! i = Some a -> l !! j = Some b -> a < b.

(** A host that polls once after every iteration of the worker. *)
Fixpoint polling_rounds (n : nat) : list Event :=
  match n with
  | O => []
  | S n => EWorker :: EUpdate :: polling_rounds n
  end.

(** The worker connects (two steps), then the session runs for [n] rounds
    of one frame produced and one frame polled. *)
Definition steady_trace (n : nat) : list Event :=
  EWorker :: EWorker :: polling_rounds n.

(** 128848 rounds: a little under 35 minutes at the worker's 16 ms pace. *)
Definition overflow_trace : list Event := steady_trace (Z.to_nat 128848).

(** The values the worker's local [frameCount] takes over [n] iterations
    from [frameCount]. *)
Fixpoint frame_counts (n : nat) (frameCount : Z) : list Z :=
  match n with
  | O => []
  | S n => frameCount :: frame_counts n (to_int (frameCount + 1))
  end.

(** A session straight out of the constructor. *)
Definition fresh_session : MoqClientImpl :=
  MoqClientImpl_new "localhost" "stream" 100.

(** The number of steps the worker thread takes in a run. *)
Fixpoint worker_steps (tr : list Event) : nat :=
  match tr with
  | [] => O
  | EWorker :: tr => S (worker_steps tr)
  | _ :: tr => worker_steps tr
  end.

(** The [frameCount] of the next frame the worker generates, counted
    down through the two connection steps that come first. *)
Definition next_count (w : WorkerThread) : Z :=
  match w with
  | AtStart => -2
  | Connecting => -1
  | InLoop frameCount => frameCount
  | Finished => 0
  end.

(** ** Lock scopes

    The block structure of the source around its two mutexes: which
    statements sit inside which [std::lock_guard] scope.  A call is
    inlined at its call site, so a callee's statements appear under the
    locks of its caller. *)

Inductive Mutex :=
| g_clientsMutex
| mutex_.

(** The statements of the source, as far as locking is concerned. *)
Inductive Work :=
| ThreadStart            (* workerThread_ = std::thread(...) *)
| StopRequest            (* running_ = false *)
| NotifyAll              (* condVar_.notify_all() *)
| Join                   (* workerThread_.join() *)
| QueueDrain             (* update, lines 51-56 *)
| StatusRead             (* reads of connectionStatus_ *)
| FrameInfoRead          (* getFrameInfo, lines 63-68 *)
| PixelCopy              (* getFrameData, lines 73-81, with its memcpy *)
| StatusWrite (s : Z)    (* connectionStatus_ = s *)
| Sleep (ms : Z)         (* std::this_thread::sleep_for *)
| RunningTest            (* if (!running_) break *)
| FrameGeneration        (* lines 116-139 *)
| QueuePush              (* lines 142-144 *)
| FrameCountIncrement    (* frameCount++ *)
| HandleAllocation       (* g_nextClientId++ *)
| RegistryInsert         (* g_clients[handle] = ... *)
| RegistryFind           (* g_clients.find *)
| RegistryErase.         (* g_clients.erase *)

#[local] Unset Elimination Schemes.
Inductive Code :=
| Do (w : Work)
| LockGuard (m : Mutex) (body : list Code)
| While (body : list Code).
#[local] Set Elimination Schemes.

(** Every statement of a piece of code with the locks its thread holds
    while executing it, innermost first.  A loop body has the same locks
    at every iteration. *)
Fixpoint locks_held (held : list Mutex) (c : Code)
    : list (Work * list Mutex) :=
  match c with
  | Do w => [(w, held)]
  | LockGuard m body => flat_map (locks_held (m :: held)) body
  | While body => flat_map (locks_held held) body
  end.

Definition locks_held_in (code : list Code) : list (Work * list Mutex) :=
  flat_map (locks_held []) code.

(** The constructor's body (line 31). *)
Definition MoqClientImpl_ctor_code : list Code := [Do ThreadStart].

(** The destructor (lines 34-45). *)
Definition MoqClientImpl_dtor_code : list Code :=
  [LockGuard mutex_ [Do StopRequest]; Do NotifyAll; Do Join].

(** [update] (lines 47-59). *)
Definition update_code : list Code :=
  [LockGuard mutex_ [Do QueueDrain; Do StatusRead]].

(** [getFrameInfo] (lines 61-69). *)
Definition getFrameInfo_code : list Code :=
  [LockGuard mutex_ [Do FrameInfoRead]].

(** [getFrameData] (lines 71-82). *)
Definition getFrameData_code : list Code :=
  [LockGuard mutex_ [Do PixelCopy]].

(** [getConnectionStatus] (lines 84-87). *)
Definition getConnectionStatus_code : list Code :=
  [LockGuard mutex_ [Do StatusRead]].

(** [workerFunction] (lines 90-152): the block of lines 111-145 holds the
    lock from the running test to the push. *)
Definition workerFunction_loop_body : list Code :=
  [LockGuard mutex_ [Do RunningTest; Do FrameGeneration; Do QueuePush];
   Do FrameCountIncrement;
   Do (Sleep 16)].

Definition workerFunction_code : list Code :=
  [LockGuard mutex_ [Do (StatusWrite 1)];
   Do (Sleep 500);
   LockGuard mutex_ [Do (StatusWrite 2)];
   While workerFunction_loop_body].

(** The locals of [workerFunction] inside its loop. *)
Record WorkerLocals := mkWorkerLocals {
  local_frameCount : Z;
  local_frame : DecodedFrame
}.

(** What a statement of the worker does to its locals and to the session;
    [None] is the [break]. *)
Definition worker_effect (w : Work) (s : WorkerLocals * MoqClientImpl)
    : option (WorkerLocals * MoqClientImpl) :=
  let '(locals, c) := s in
  match w with
  | StatusWrite status => Some (locals, set_connectionStatus status c)
  | RunningTest => if negb (running_ c) then None else Some s
  | FrameGeneration =>
      Some ({| local_frameCount := local_frameCount locals;
               local_frame := generate_frame (local_frameCount locals) |},
            c)
  | QueuePush => Some (locals, push_if_room (local_frame locals) c)
  | FrameCountIncrement =>
      Some ({| local_frameCount := to_int (local_frameCount locals + 1);
               local_frame := local_frame locals |},
            c)
  | _ => Some s
  end.

(** One pass over a piece of the worker's code, a loop body being run
    once. *)
Fixpoint worker_exec (c : Code) (s : WorkerLocals * MoqClientImpl)
    : option (WorkerLocals * MoqClientImpl) :=
  let block :=
    fix block (body : list Code) (s : WorkerLocals * MoqClientImpl) :=
      match body with
      | [] => Some s
      | c :: body =>
          match worker_exec c s with
          | Some s => block body s
          | None => None
          end
      end in
  match c with
  | Do w => worker_effect w s
  | LockGuard _ body => block body s
  | While body => block body s
  end.

(** The exported functions (lines 173-234): each body is one
    [lock_guard] on [g_clientsMutex]. *)
Definition MoqCreateClient_code : list Code :=
  [LockGuard g_clientsMutex
     (Do HandleAllocation :: MoqClientImpl_ctor_code ++ [Do RegistryInsert])].

Definition MoqDestroyClient_code : list Code :=
  [LockGuard g_clientsMutex
     (Do RegistryFind :: Do RegistryErase :: MoqClientImpl_dtor_code)].

Definition MoqUpdateClient_code : list Code :=
  [LockGuard g_clientsMutex (Do RegistryFind :: update_code)].

Definition MoqGetFrameInfo_code : list Code :=
  [LockGuard g_clientsMutex (Do RegistryFind :: getFrameInfo_code)].

Definition MoqGetFrameData_code : list Code :=
  [LockGuard g_clientsMutex (Do RegistryFind :: getFrameData_code)].

Definition MoqGetConnectionStatus_code : list Code :=
  [LockGuard g_clientsMutex (Do RegistryFind :: getConnectionStatus_code)].

Definition exported_code : list (list Code) :=
  [MoqCreateClient_code; MoqDestroyClient_code; MoqUpdateClient_code;
   MoqGetFrameInfo_code; MoqGetFrameData_code; MoqGetConnectionStatus_code].

(** The operations whose duration is not bounded by a few memory
    accesses: sleeping, waiting for a thread, producing the 1228800 bytes
    of a frame, copying them. *)
Definition slow (w : Work) : bool :=
  match w with
  | Sleep _ | Join | FrameGeneration | PixelCopy => true
  | _ => false
  end.

(** No slow operation of [code] runs with a lock held. *)
Definition slow_work_unlocked (code : list Code) : Prop :=
  forall w held, In (w, held) (locks_held_in code) ->
                 slow w = true -> held = [].

(** ** The gradient *)

(** Lines 130-137: the byte the generator stores in channel [k] (0 red,
    1 green, 2 blue, 3 alpha) of pixel [(x, y)] of frame [frameCount]. *)
Definition gradient_byte (frameCount x y : Z) (k : Z) : Z :=
  if decide (k = 0) then to_uint8 (Z.rem (to_int (x + frameCount)) 255)
  else if decide (k = 1)
  then to_uint8 (Z.rem (to_int (y + to_int (frameCount * 2))) 255)
  else if decide (k = 2)
  then to_uint8
         (Z.rem (to_int (to_int (x + y) + to_int (frameCount * 3))) 255)
  else 255.

(** ** Counting calls and steps *)

(** The number of [MoqCreateClient] calls in a run. *)
Fixpoint creates (calls : list Call) : nat :=
  match calls with
  | [] => O
  | CallCreate _ _ _ :: calls => S (creates calls)
  | _ :: calls => creates calls
  end.

(** The handle a call works on: its argument, or for [MoqCreateClient]
    the handle it is about to return. *)
Definition call_handle (call : Call) (p : Plugin) : Z :=
  match call with
  | CallCreate _ _ _ => g_nextClientId p
  | CallDestroy client
  | CallUpdate client
  | CallGetFrameInfo client _ _
  | CallGetFrameData client _ _
  | CallGetConnectionStatus client
  | CallWorker client => client
  end.

(** How many of its critical sections the worker still has to run before
    it returns, once [running_] is false. *)
Definition steps_to_finish (w : WorkerThread) : nat :=
  match w with
  | AtStart => 3
  | Connecting => 2
  | InLoop _ => 1
  | Finished => 0
  end.

(** A worker left alone: it connects (two steps) and then runs [n]
    iterations while the host calls nothing. *)
Definition unpolled_trace (n : nat) : list Event := replicate (2 + n) EWorker.

(** The events that are neither an [update] nor a [getFrameData]: steps of
    the worker, the two read-only queries and the stop request. *)
Definition leaves_slot (e : Event) : bool :=
  match e with
  | EUpdate | EGetFrameData _ _ => false
  | _ => true
  end.

(** The destruction of the static [g_clients] (line 11) at exit or when
    the library is unloaded: the destructor of every session still
    registered runs, outside any exported function and so without
    [g_clientsMutex]. *)
Definition static_destruction_code : list Code := MoqClientImpl_dtor_code.

(** [MoqCreateClient] when [g_clients[handle]] already holds a session:
    the assignment of line 178 destroys the session it replaces. *)
Definition MoqCreateClient_replacing_code : list Code :=
  [LockGuard g_clientsMutex
     (Do HandleAllocation
        :: MoqClientImpl_ctor_code
        ++ Do RegistryInsert :: MoqClientImpl_dtor_code)].

(** The code of every thread: the worker, the exported functions, and the
    two other places where a session's destructor runs. *)
Definition all_code : list (list Code) :=
  workerFunction_code :: static_destruction_code
    :: MoqCreateClient_replacing_code :: exported_code.

(** The handles the calls of a run work on, oldest call first. *)
Fixpoint handles_of_run (calls : list Call) (p : Plugin) : list Z :=
  match calls with
  | [] => []
  | call :: calls =>
      call_handle call p :: handles_of_run calls (plugin_step call p)
  end.
(** ** Frames: sizes

    The generated frame is never evaluated: its 1228800 bytes are reasoned
    about through the lemmas of this section. *)

(** The gradient on a 2 by 2 frame at [frameCount = 300]: R, G, B, A per
    pixel, row by row. *)
Example fill_gradient_2x2 :
  fill_gradient 2 2 300 (vector_resize [] 16)
  = [45; 90; 135; 255;  46; 90; 136; 255;
     45; 91; 136; 255;  46; 91; 137; 255].
Proof. reflexivity. Qed.

Lemma length_write_pixel frame_width frameCount y x (d : list Z) :
  length (write_pixel frame_width frameCount y x d) = length d.
Proof. unfold write_pixel. by rewrite !length_insert. Qed.

Lemma length_foldl_preserved {A} (f : list Z -> A -> list Z) (l : list A) :
  (forall d a, length (f d a) = length d) ->
  forall d, length (foldl f d l) = length d.
Proof.
  intros Hf. induction l as [|a l IH]; intros d; [done|].
  cbn [foldl]. by rewrite IH, Hf.
Qed.

Lemma length_fill_gradient frame_width frame_height frameCount (d : list Z) :
  length (fill_gradient frame_width frame_height frameCount d) = length d.
Proof.
  unfold fill_gradient.
  apply length_foldl_preserved; intros d' y.
  apply length_foldl_preserved; intros d'' x.
  apply length_write_pixel.
Qed.

Lemma length_vector_resize_nil n :
  length (vector_resize [] n) = Z.to_nat n.
Proof.
  unfold vector_resize.
  rewrite length_app, length_take, length_replicate.
  cbn [length]. lia.
Qed.

Lemma generate_frame_data frameCount :
  data (generate_frame frameCount)
  = fill_gradient 640 480 frameCount (vector_resize [] 1228800).
Proof. reflexivity. Qed.

Lemma generate_frame_width frameCount : width (generate_frame frameCount) = 640.
Proof. reflexivity. Qed.

Lemma generate_frame_height frameCount : height (generate_frame frameCount) = 480.
Proof. reflexivity. Qed.

Lemma generate_frame_timestamp frameCount :
  timestamp (generate_frame frameCount)
  = to_int64 (to_int (frameCount * 16667)).
Proof. reflexivity. Qed.

Lemma generate_frame_size frameCount :
  Z.of_nat (length (data (generate_frame frameCount))) = 1228800.
Proof.
  rewrite generate_frame_data, length_fill_gradient, length_vector_resize_nil.
  apply Z2Nat.id. lia.
Qed.

Lemma vector_empty_length {A} (v : list A) :
  vector_empty v = false <-> (0 < Z.of_nat (length v)).
Proof. destruct v; cbn [vector_empty length]; split; (lia || done). Qed.

Lemma generate_frame_nonempty frameCount :
  vector_empty (data (generate_frame frameCount)) = false.
Proof. apply vector_empty_length. rewrite generate_frame_size. lia. Qed.

Lemma length_memcpy (dst src : list Z) n :
  Z.of_nat (length src) = n ->
  (length src <= length dst)%nat ->
  length (memcpy dst src n) = length dst.
Proof.
  intros <- Hle. unfold memcpy.
  rewrite Nat2Z.id, length_app, length_take, length_drop. lia.
Qed.

Lemma memcpy_exact (dst src : list Z) n :
  Z.of_nat (length src) = n ->
  memcpy dst src n = src ++ drop (length src) dst.
Proof.
  intros <-. unfold memcpy. by rewrite Nat2Z.id, firstn_all.
Qed.


Lemma produced_size f :
  produced f ->
  width f = 640 /\ height f = 480 /\
  Z.of_nat (length (data f)) = width f * height f * 4 /\
  Z.of_nat (length (data f)) = 1228800.
Proof.
  intros [frameCount ->].
  rewrite generate_frame_size, generate_frame_width, generate_frame_height.
  by repeat split.
Qed.

(** ** The session invariant *)

Lemma session_inv_new serverUrl streamPath targetLatencyMs :
  session_inv (MoqClientImpl_new serverUrl streamPath targetLatencyMs).
Proof. split; cbn; [lia | constructor | discriminate | reflexivity]. Qed.

Lemma session_inv_worker c :
  session_inv c -> session_inv (workerFunction_step c).
Proof.
  intros [Hlen Hq Hcur Hst]. unfold workerFunction_step.
  destruct (workerThread_ c) as [| |frameCount|] eqn:Hw; cbn in Hst.
  - split; cbn; done.
  - split; cbn; done.
  - destruct (running_ c); cbn [negb].
    + unfold push_if_room.
      destruct (length (frameQueue_ c) <? 5)%nat eqn:Hroom.
      * apply Nat.ltb_lt in Hroom.
        split; cbn; [| |done|done].
        -- rewrite length_app. cbn. lia.
        -- apply Forall_app. split; [done|].
           constructor; [by exists frameCount|constructor].
      * split; cbn; done.
    + split; cbn; done.
  - split; cbn; rewrite ?Hw; done.
Qed.

Lemma session_inv_update c :
  session_inv c -> session_inv (snd (update c)).
Proof.
  intros [Hlen Hq Hcur Hst]. unfold update. cbn [snd].
  destruct (frameQueue_ c) as [|front rest] eqn:Hqueue.
  - split; [by rewrite Hqueue| by rewrite Hqueue|done|done].
  - apply Forall_cons in Hq as [Hfront Hrest].
    split; cbn; [cbn in Hlen; lia|done|done|done].
Qed.

Lemma getFrameData_cases c buffer bufferSize :
  getFrameData c buffer bufferSize = (false, buffer, c) \/
  (hasNewFrame_ c = true /\
   vector_empty (data (currentFrame_ c)) = false /\
   to_int (Z.of_nat (length (data (currentFrame_ c)))) <= bufferSize /\
   getFrameData c buffer bufferSize
   = (true,
      memcpy buffer (data (currentFrame_ c))
        (to_int (Z.of_nat (length (data (currentFrame_ c))))),
      set_hasNewFrame false c)).
Proof.
  unfold getFrameData.
  destruct (hasNewFrame_ c); cbn [andb]; [|by left].
  destruct (vector_empty (data (currentFrame_ c))); cbn [negb]; [by left|].
  destruct (Z.geb_spec bufferSize
              (to_int (Z.of_nat (length (data (currentFrame_ c))))));
    [right; repeat split; (done || lia) | by left].
Qed.

Lemma session_inv_getFrameData c buffer bufferSize :
  session_inv c -> session_inv (snd (getFrameData c buffer bufferSize)).
Proof.
  intros Hinv.
  destruct (getFrameData_cases c buffer bufferSize) as [->|(_ & _ & _ & ->)];
    [done|].
  destruct Hinv as [Hlen Hq Hcur Hst]. split; cbn; done.
Qed.

Lemma session_inv_step e c : session_inv c -> session_inv (step e c).
Proof.
  intros Hinv. destruct e; cbn [step]; try done.
  - by apply session_inv_worker.
  - by apply session_inv_update.
  - by apply session_inv_getFrameData.
  - destruct Hinv as [Hlen Hq Hcur Hst]. split; cbn; done.
Qed.

Lemma reachable_inv c : reachable c -> session_inv c.
Proof.
  induction 1 as [serverUrl streamPath targetLatencyMs|e c _ IH].
  - apply session_inv_new.
  - by apply session_inv_step.
Qed.

Lemma run_app tr1 tr2 c : run (tr1 ++ tr2) c = run tr2 (run tr1 c).
Proof. apply foldl_app. Qed.

Lemma run_snoc tr e c : run (tr ++ [e]) c = step e (run tr c).
Proof. by rewrite run_app. Qed.

Lemma reachable_run tr c : reachable c -> reachable (run tr c).
Proof.
  revert c. induction tr as [|e tr IH]; intros c Hc; [done|].
  cbn. apply IH. by constructor.
Qed.

Lemma reachable_exists_run c :
  reachable c <->
  exists serverUrl streamPath targetLatencyMs tr,
    c = run tr (MoqClientImpl_new serverUrl streamPath targetLatencyMs).
Proof.
  split.
  - induction 1 as [u s t|e c _ (u & s & t & tr & ->)].
    + by exists u, s, t, [].
    + exists u, s, t, (tr ++ [e]). by rewrite run_snoc.
  - intros (u & s & t & tr & ->). apply reachable_run. constructor.
Qed.

(** ** The registry *)

Lemma destroyed_handle_absent p client :
  g_clients (MoqDestroyClient p client) !! client = None.
Proof.
  unfold MoqDestroyClient.
  destruct (g_clients p !! client) eqn:Hlookup; cbn; [|done].
  apply lookup_delete_eq.
Qed.

Lemma fresh_plugin_absent client : g_clients Plugin_init !! client = None.
Proof. apply lookup_empty. Qed.

Lemma MoqDestroyClient_other p client other :
  client <> other ->
  g_clients (MoqDestroyClient p client) !! other = g_clients p !! other.
Proof.
  intros Hne. unfold MoqDestroyClient.
  destruct (g_clients p !! client); cbn; [|done].
  by apply lookup_delete_ne.
Qed.

Lemma plugin_step_registered call p client :
  is_Some (g_clients (plugin_step call p) !! client) ->
  is_Some (g_clients p !! client) \/
  (exists serverUrl streamPath targetLatencyMs,
      call = CallCreate serverUrl streamPath targetLatencyMs /\
      client = g_nextClientId p).
Proof.
  destruct call as [u s t|h|h|h w0 h0|h buffer n|h|h]; cbn [plugin_step].
  - cbn. destruct (decide (g_nextClientId p = client)) as [<-|Hne].
    + intros _. right. by exists u, s, t.
    + rewrite lookup_insert_ne by done. by left.
  - destruct (decide (h = client)) as [->|Hne].
    + rewrite destroyed_handle_absent. by intros [? [=]].
    + rewrite MoqDestroyClient_other by done. by left.
  - unfold MoqUpdateClient.
    destruct (g_clients p !! h) as [c|] eqn:Hh; [|by left].
    destruct (update c) as [r c']. cbn.
    destruct (decide (h = client)) as [->|Hne].
    + intros _. left. by rewrite Hh.
    + rewrite lookup_insert_ne by done. by left.
  - unfold MoqGetFrameInfo.
    destruct (g_clients p !! h); by left.
  - unfold MoqGetFrameData.
    destruct (g_clients p !! h) as [c|] eqn:Hh; [|by left].
    destruct (getFrameData c buffer n) as [[r buffer'] c']. cbn.
    destruct (decide (h = client)) as [->|Hne].
    + intros _. left. by rewrite Hh.
    + rewrite lookup_insert_ne by done. by left.
  - unfold MoqGetConnectionStatus.
    destruct (g_clients p !! h); by left.
  - cbn. destruct (decide (h = client)) as [->|Hne].
    + rewrite lookup_alter_eq. intros [c Hc]. left.
      destruct (g_clients p !! client); [done|discriminate].
    + rewrite lookup_alter_ne by done. by left.
Qed.

(** A handle is registered only if it was registered before the run or
    [MoqCreateClient] returned it during the run. *)
Lemma registered_was_returned calls : forall p client,
  is_Some (g_clients (plugin_run calls p) !! client) ->
  is_Some (g_clients p !! client) \/ client ∈ returned_handles calls p.
Proof.
  induction calls as [|call calls IH]; intros p client Hreg; [by left|].
  cbn [plugin_run foldl] in Hreg. fold (plugin_run calls (plugin_step call p)) in Hreg.
  destruct (IH _ _ Hreg) as [Hbefore|Hret].
  - destruct (plugin_step_registered call p client Hbefore)
      as [Hp|(u & s & t & -> & ->)]; [by left|].
    right. cbn [returned_handles]. apply list_elem_of_here.
  - right. destruct call; cbn [returned_handles]; try done.
    by apply list_elem_of_further.
Qed.

(** A handle that [MoqCreateClient] never returned is not in the
    registry. *)
Lemma never_returned_absent calls client :
  client ∉ returned_handles calls Plugin_init ->
  g_clients (plugin_run calls Plugin_init) !! client = None.
Proof.
  intros Hnever.
  destruct (g_clients (plugin_run calls Plugin_init) !! client) eqn:Hreg;
    [|done].
  destruct (registered_was_returned calls Plugin_init client) as [[c Hc]|Hret];
    [by rewrite Hreg| |done].
  by rewrite fresh_plugin_absent in Hc.
Qed.

(** C1: on a handle that is not in the registry, [MoqUpdateClient],
    [MoqGetFrameInfo] and [MoqGetFrameData] return false,
    [MoqGetConnectionStatus] returns a negative value, and each of them
    (and [MoqDestroyClient]) leaves the whole registry, the caller's
    out-parameters and the caller's buffer as they were.  A destroyed handle
    is such a handle by [destroyed_handle_absent], a handle that
    [MoqCreateClient] never returned by [never_returned_absent]. *)
Theorem unknown_handle_rejected (p : Plugin) (client w h : Z)
    (buffer : list Z) (bufferSize : Z) :
  g_clients p !! client = None ->
  MoqUpdateClient p client = (false, p) /\
  MoqGetFrameInfo p client w h = (false, w, h, p) /\
  MoqGetFrameData p client buffer bufferSize = (false, buffer, p) /\
  (exists status,
      MoqGetConnectionStatus p client = (status, p) /\ status < 0) /\
  MoqDestroyClient p client = p.
Proof.
  intros Hnone.
  unfold MoqUpdateClient, MoqGetFrameInfo, MoqGetFrameData,
    MoqGetConnectionStatus, MoqDestroyClient.
  rewrite Hnone. do 3 (split; [reflexivity|]). split; [|reflexivity].
  exists (-1). split; [reflexivity|lia].
Qed.

(** The handle 1 once created and destroyed again, polled with a
    four-byte buffer. *)
Lemma unknown_handle_rejected_witness :
  let p := MoqDestroyClient one_client 1 in
  g_clients p !! 1 = None /\
  MoqUpdateClient p 1 = (false, p) /\
  MoqGetFrameInfo p 1 7 9 = (false, 7, 9, p) /\
  MoqGetFrameData p 1 [1; 2; 3; 4] 4 = (false, [1; 2; 3; 4], p) /\
  (exists status, MoqGetConnectionStatus p 1 = (status, p) /\ status < 0) /\
  MoqDestroyClient p 1 = p.
Proof.
  intros p.
  assert (Habsent : g_clients p !! 1 = None)
    by (subst p; apply destroyed_handle_absent).
  split; [exact Habsent|].
  exact (unknown_handle_rejected p 1 7 9 [1; 2; 3; 4] 4 Habsent).
Defined.

(** C7: on a registered handle, [MoqUpdateClient] returns true exactly when
    the session's status is not negative.  In the registry it returns,
    the handle holds the session after [update]: if the queue was empty
    that is the session as it was; otherwise the front of the queue, and
    only the front, has moved into the current-frame slot and the unread
    flag is set, every other member being as before.  Every other handle
    and [g_nextClientId] are untouched. *)
Theorem update_registered (p : Plugin) (client : Z) (c : MoqClientImpl) :
  g_clients p !! client = Some c ->
  exists r p' c',
    MoqUpdateClient p client = (r, p') /\
    p' = set_clients (<[client := c']> (g_clients p)) p /\
    g_clients p' !! client = Some c' /\
    (forall other, other <> client ->
                   g_clients p' !! other = g_clients p !! other) /\
    g_nextClientId p' = g_nextClientId p /\
    (r = true <-> 0 <= connectionStatus_ c) /\
    connectionStatus_ c' = connectionStatus_ c /\
    running_ c' = running_ c /\
    workerThread_ c' = workerThread_ c /\
    serverUrl_ c' = serverUrl_ c /\
    streamPath_ c' = streamPath_ c /\
    targetLatencyMs_ c' = targetLatencyMs_ c /\
    match frameQueue_ c with
    | [] => c' = c
    | front :: rest =>
        frameQueue_ c' = rest /\
        currentFrame_ c' = front /\
        hasNewFrame_ c' = true
    end.
Proof.
  intros Hsome. unfold MoqUpdateClient. rewrite Hsome.
  destruct (update c) as [r c'] eqn:Hupd.
  exists r, (set_clients (<[client := c']> (g_clients p)) p), c'.
  split; [reflexivity|]. split; [reflexivity|].
  split; [apply lookup_insert_eq|].
  split; [intros other Hne; cbn; by apply lookup_insert_ne|].
  split; [reflexivity|].
  unfold update in Hupd.
  destruct (frameQueue_ c) as [|front rest]; cbn in Hupd;
    injection Hupd as <- <-; cbn; repeat split; lia.
Qed.

Lemma streaming_client_registered :
  g_clients streaming_client !! 1
  = Some (run [EWorker; EWorker; EWorker]
            (MoqClientImpl_new "localhost" "stream" 100)).
Proof. reflexivity. Qed.

(** Client 1 has frame 0 queued: the poll moves it into the slot, in the
    registry, and leaves client 2 alone. *)
Lemma update_registered_witness :
  g_clients streaming_client !! 1
  = Some (run [EWorker; EWorker; EWorker]
            (MoqClientImpl_new "localhost" "stream" 100)) /\
  exists p' c',
    MoqUpdateClient streaming_client 1 = (true, p') /\
    g_clients p' !! 1 = Some c' /\
    g_clients p' !! 2 = g_clients streaming_client !! 2 /\
    frameQueue_ c' = [] /\
    currentFrame_ c' = generate_frame 0 /\
    hasNewFrame_ c' = true.
Proof.
  split; [exact streaming_client_registered|].
  destruct (update_registered streaming_client 1 _
              streaming_client_registered)
    as (r & p' & c' & Hcall & _ & Hreg & Hother & _ & Hr & _ & _ & _ & _
        & _ & _ & Hq & Hcur & Hnew).
  assert (r = true) as -> by (apply Hr; cbn; lia).
  exists p', c'.
  split; [exact Hcall|]. split; [exact Hreg|].
  split; [apply Hother; discriminate|].
  split; [exact Hq|]. split; [exact Hcur|exact Hnew].
Defined.

(** ** The frame queue *)

Lemma polled_session_reachable : reachable polled_session.
Proof. apply reachable_run. constructor. Qed.

Lemma saturated_session_reachable : reachable saturated_session.
Proof. apply reachable_run. constructor. Qed.

Lemma worker_full_queue c :
  length (frameQueue_ c) = 5%nat ->
  frameQueue_ (workerFunction_step c) = frameQueue_ c /\
  currentFrame_ (workerFunction_step c) = currentFrame_ c /\
  hasNewFrame_ (workerFunction_step c) = hasNewFrame_ c.
Proof.
  intros Hfull. unfold workerFunction_step, push_if_room.
  rewrite Hfull.
  destruct (workerThread_ c); [done|done| |done].
  by destruct (running_ c).
Qed.

(** C2: in every state a session reaches, and after any further
    interleaving of worker iterations and host calls, the queue holds at
    most 5 frames; a worker iteration that finds 5 frames in the queue
    returns with the very same queue (the new frame is the one that is
    lost, nothing queued is evicted) and with the current-frame slot and
    the unread flag untouched.  The iteration is a total function of the
    state: it does not wait for room. *)
Theorem frame_queue_capacity (c : MoqClientImpl) (tr : list Event) :
  reachable c ->
  (length (frameQueue_ (run tr c)) <= 5)%nat /\
  (length (frameQueue_ (run tr c)) = 5%nat ->
   frameQueue_ (workerFunction_step (run tr c)) = frameQueue_ (run tr c) /\
   currentFrame_ (workerFunction_step (run tr c)) = currentFrame_ (run tr c) /\
   hasNewFrame_ (workerFunction_step (run tr c)) = hasNewFrame_ (run tr c)).
Proof.
  intros Hc. split.
  - apply reachable_inv. by apply reachable_run.
  - apply worker_full_queue.
Qed.

(** Five more worker iterations on the saturated session: the queue still
    holds the five oldest frames. *)
Lemma frame_queue_capacity_witness :
  let tr := [EWorker; EWorker; EWorker; EWorker; EWorker] in
  reachable saturated_session /\
  length (frameQueue_ (run tr saturated_session)) = 5%nat /\
  frameQueue_ (run tr saturated_session)
  = generate_frame <$> [0; 1; 2; 3; 4] /\
  frameQueue_ (workerFunction_step (run tr saturated_session))
  = frameQueue_ (run tr saturated_session).
Proof.
  intros tr.
  pose proof (frame_queue_capacity saturated_session tr
                saturated_session_reachable) as [_ Hfull].
  split; [exact saturated_session_reachable|].
  split; [reflexivity|].
  split; [reflexivity|].
  exact (proj1 (Hfull eq_refl)).
Defined.

(** ** Reading the current frame *)

Lemma getFrameData_sufficient c buffer bufferSize :
  reachable c ->
  hasNewFrame_ c = true ->
  Z.of_nat (length (data (currentFrame_ c))) <= bufferSize ->
  getFrameData c buffer bufferSize
  = (true,
     data (currentFrame_ c) ++ drop (length (data (currentFrame_ c))) buffer,
     set_hasNewFrame false c).
Proof.
  intros Hc Hnew Hsize.
  destruct (inv_current_produced c (reachable_inv c Hc) Hnew)
    as [frameCount Hframe].
  unfold getFrameData. rewrite Hnew, Hframe in *.
  rewrite generate_frame_nonempty. cbn [andb negb].
  rewrite generate_frame_size in *.
  change (to_int 1228800) with 1228800.
  destruct (Z.geb_spec bufferSize 1228800); [|lia].
  rewrite memcpy_exact by apply generate_frame_size. done.
Qed.

Lemma getFrameData_insufficient c buffer bufferSize :
  reachable c ->
  bufferSize < Z.of_nat (length (data (currentFrame_ c))) ->
  getFrameData c buffer bufferSize = (false, buffer, c).
Proof.
  intros Hc Hsize.
  destruct (getFrameData_cases c buffer bufferSize)
    as [Hfail|(Hnew & _ & Hle & _)]; [done|].
  destruct (inv_current_produced c (reachable_inv c Hc) Hnew)
    as [frameCount Hframe].
  rewrite Hframe, generate_frame_size in *.
  change (to_int 1228800) with 1228800 in Hle. lia.
Qed.

(** C3: on a session with an unread frame, [getFrameData] with a
    [bufferSize] below the frame's byte length returns false, hands the
    buffer back as it was and leaves the session as it was, unread flag and
    current frame included; a retry on that session with a [bufferSize] of
    at least the byte length returns true, writes the frame's bytes at the
    start of the buffer and clears the flag. *)
Theorem getFrameData_small_buffer (c : MoqClientImpl) (buffer : list Z)
    (bufferSize : Z) :
  reachable c ->
  hasNewFrame_ c = true ->
  bufferSize < Z.of_nat (length (data (currentFrame_ c))) ->
  exists c1,
    getFrameData c buffer bufferSize = (false, buffer, c1) /\
    c1 = c /\
    hasNewFrame_ c1 = true /\
    currentFrame_ c1 = currentFrame_ c /\
    forall buffer2 bufferSize2,
      Z.of_nat (length (data (currentFrame_ c))) <= bufferSize2 ->
      getFrameData c1 buffer2 bufferSize2
      = (true,
         data (currentFrame_ c)
           ++ drop (length (data (currentFrame_ c))) buffer2,
         set_hasNewFrame false c1).
Proof.
  intros Hc Hnew Hsize. exists c.
  split; [by apply getFrameData_insufficient|].
  do 3 (split; [done|]).
  intros buffer2 bufferSize2 Hle. by apply getFrameData_sufficient.
Qed.

Lemma polled_session_current : currentFrame_ polled_session = generate_frame 0.
Proof. reflexivity. Qed.

(** The polled session read with room for one 640-pixel row only. *)
Lemma getFrameData_small_buffer_witness :
  reachable polled_session /\
  hasNewFrame_ polled_session = true /\
  2560 < Z.of_nat (length (data (currentFrame_ polled_session))) /\
  getFrameData polled_session (replicate 2560 0) 2560
  = (false, replicate 2560 0, polled_session).
Proof.
  assert (Hsize : 2560 < Z.of_nat (length (data (currentFrame_ polled_session))))
    by (rewrite polled_session_current, generate_frame_size; lia).
  split; [exact polled_session_reachable|].
  split; [reflexivity|].
  split; [exact Hsize|].
  destruct (getFrameData_small_buffer polled_session (replicate 2560 0) 2560
              polled_session_reachable eq_refl Hsize)
    as (c1 & Hcall & -> & _).
  exact Hcall.
Defined.

Lemma workerFunction_step_hasNewFrame c :
  hasNewFrame_ (workerFunction_step c) = hasNewFrame_ c.
Proof.
  unfold workerFunction_step, push_if_room.
  destruct (workerThread_ c); [done|done| |done].
  destruct (running_ c); [|done].
  by destruct (length (frameQueue_ c) <? 5)%nat.
Qed.

Lemma step_keeps_consumed e c :
  e <> EUpdate -> hasNewFrame_ c = false -> hasNewFrame_ (step e c) = false.
Proof.
  intros Hne Hread. destruct e; cbn [step]; try done.
  - by rewrite workerFunction_step_hasNewFrame.
  - unfold getFrameData. by rewrite Hread.
Qed.


Lemma getFrameData_no_frame c buffer bufferSize :
  hasNewFrame_ c = false ->
  getFrameData c buffer bufferSize = (false, buffer, c).
Proof. intros Hread. unfold getFrameData. by rewrite Hread. Qed.






(** C6: every frame the worker generates is 640 by 480 with
    [width * height * 4 = 1228800] bytes; so is every frame queued in a
    reachable session; and whenever [getFrameInfo] returns true, the width
    and height it reports are those of the frame whose bytes a following
    [getFrameData] copies: that frame has exactly [w * h * 4] bytes and a
    [bufferSize] of [w * h * 4] is enough to get all of them. *)
Theorem frame_size_consistent (c : MoqClientImpl) :
  reachable c ->
  (forall frameCount,
      width (generate_frame frameCount) = 640 /\
      height (generate_frame frameCount) = 480 /\
      Z.of_nat (length (data (generate_frame frameCount)))
      = width (generate_frame frameCount)
        * height (generate_frame frameCount) * 4) /\
  Forall (fun f => Z.of_nat (length (data f)) = width f * height f * 4)
         (frameQueue_ c) /\
  forall w0 h0 w h,
    getFrameInfo c w0 h0 = (true, w, h) ->
    w = 640 /\ h = 480 /\
    Z.of_nat (length (data (currentFrame_ c))) = w * h * 4 /\
    forall buffer,
      getFrameData c buffer (w * h * 4)
      = (true,
         data (currentFrame_ c)
           ++ drop (length (data (currentFrame_ c))) buffer,
         set_hasNewFrame false c).
Proof.
  intros Hc. pose proof (reachable_inv c Hc) as [_ Hq Hcur _].
  split; [|split].
  - intros frameCount.
    by rewrite generate_frame_size, generate_frame_width,
      generate_frame_height.
  - eapply Forall_impl; [exact Hq|].
    intros f Hf. by apply produced_size in Hf as (_ & _ & Hlen & _).
  - intros w0 h0 w h Hinfo. unfold getFrameInfo in Hinfo.
    destruct (hasNewFrame_ c) eqn:Hnew; [|discriminate].
    injection Hinfo as <- <-.
    destruct (produced_size _ (Hcur eq_refl)) as (Hw & Hh & Hlen & _).
    repeat split; try done.
    intros buffer. apply getFrameData_sufficient; [done|done|lia].
Qed.

Lemma frame_size_consistent_witness :
  reachable polled_session /\
  getFrameInfo polled_session 0 0 = (true, 640, 480) /\
  Z.of_nat (length (data (currentFrame_ polled_session))) = 640 * 480 * 4.
Proof.
  split; [exact polled_session_reachable|].
  split; [reflexivity|].
  pose proof (frame_size_consistent polled_session polled_session_reachable)
    as (_ & _ & Hinfo).
  exact (proj1 (proj2 (proj2 (Hinfo 0 0 640 480 eq_refl)))).
Defined.

(** ** The connection status *)

Lemma workerFunction_step_status c :
  session_inv c ->
  connectionStatus_ (workerFunction_step c) = connectionStatus_ c \/
  (connectionStatus_ c = 0 /\ connectionStatus_ (workerFunction_step c) = 1) \/
  (connectionStatus_ c = 1 /\ connectionStatus_ (workerFunction_step c) = 2).
Proof.
  intros [_ _ _ Hst]. unfold workerFunction_step, push_if_room.
  destruct (workerThread_ c); cbn [status_at] in Hst.
  - right; left. by split.
  - right; right. by split.
  - left. destruct (running_ c); [|done].
    by destruct (length (frameQueue_ c) <? 5)%nat.
  - by left.
Qed.

Lemma step_status e c :
  session_inv c ->
  connectionStatus_ (step e c) = connectionStatus_ c \/
  (connectionStatus_ c = 0 /\ connectionStatus_ (step e c) = 1) \/
  (connectionStatus_ c = 1 /\ connectionStatus_ (step e c) = 2).
Proof.
  intros Hinv. destruct e; cbn [step]; try by left.
  - by apply workerFunction_step_status.
  - left. unfold update. by destruct (frameQueue_ c).
  - left.
    by destruct (getFrameData_cases c buffer bufferSize)
      as [->|(_ & _ & _ & ->)].
Qed.

Lemma status_range c :
  session_inv c ->
  connectionStatus_ c = 0 \/ connectionStatus_ c = 1 \/ connectionStatus_ c = 2.
Proof.
  intros [_ _ _ Hst]. rewrite Hst.
  destruct (workerThread_ c); cbn; auto.
Qed.

Lemma run_status_le tr c :
  session_inv c -> connectionStatus_ c <= connectionStatus_ (run tr c).
Proof.
  revert c. induction tr as [|e tr IH]; intros c Hinv; [done|].
  cbn [run foldl]. fold (run tr (step e c)).
  etrans; [|apply IH; by apply session_inv_step].
  destruct (step_status e c Hinv) as [->|[[-> ->]|[-> ->]]]; lia.
Qed.

(** C8: a fresh session reports 0 (Disconnected); in every reachable state
    the status is 0, 1 or 2; one step of the session, by the worker or by
    any call, leaves the status as it is or takes it from 0 to 1 or from 1
    to 2; so along any interleaving the value [getConnectionStatus] reports
    never decreases, and once it is 2 (Connected) it stays 2, also after
    the destructor has asked the worker to stop. *)
Theorem connection_status_monotone (c : MoqClientImpl) (e : Event)
    (tr : list Event) :
  reachable c ->
  (forall serverUrl streamPath targetLatencyMs,
      getConnectionStatus
        (MoqClientImpl_new serverUrl streamPath targetLatencyMs) = 0) /\
  (getConnectionStatus c = 0 \/ getConnectionStatus c = 1 \/
   getConnectionStatus c = 2) /\
  (getConnectionStatus (step e c) = getConnectionStatus c \/
   (getConnectionStatus c = 0 /\ getConnectionStatus (step e c) = 1) \/
   (getConnectionStatus c = 1 /\ getConnectionStatus (step e c) = 2)) /\
  getConnectionStatus c <= getConnectionStatus (run tr c) /\
  (getConnectionStatus c = 2 -> getConnectionStatus (run tr c) = 2).
Proof.
  intros Hc. pose proof (reachable_inv c Hc) as Hinv.
  unfold getConnectionStatus.
  split; [done|].
  split; [by apply status_range|].
  split; [by apply step_status|].
  pose proof (run_status_le tr c Hinv) as Hle.
  split; [done|].
  intros Hconn.
  destruct (status_range (run tr c)) as [H|[H|H]];
    [apply reachable_inv; by apply reachable_run|lia..].
Qed.

(** The polled session is Connected and stays so through a stop request
    and the worker's last step. *)
Lemma connection_status_monotone_witness :
  reachable polled_session /\
  getConnectionStatus polled_session = 2 /\
  getConnectionStatus (run [EDestructorStop; EWorker] polled_session) = 2.
Proof.
  split; [exact polled_session_reachable|].
  split; [reflexivity|].
  exact (proj2 (proj2 (proj2 (proj2
           (connection_status_monotone polled_session EWorker
              [EDestructorStop; EWorker] polled_session_reachable))))
           eq_refl).
Defined.

(** ** Polling an empty queue *)

Lemma update_empty c :
  frameQueue_ c = [] -> update c = (connectionStatus_ c >=? 0, c).
Proof. intros Hq. unfold update. by rewrite Hq. Qed.

Lemma update_iter_empty n c :
  frameQueue_ c = [] -> Nat.iter n (fun c => snd (update c)) c = c.
Proof.
  intros Hq. induction n as [|n IH]; [done|].
  rewrite Nat.iter_succ, IH. by rewrite update_empty.
Qed.

(** C10: on a session whose queue is empty, [update] returns the session
    as it was, current frame and unread flag included, and so does any
    number of [update] calls in a row; if a frame was unread before them it
    is still unread after them: [getFrameInfo] returns true with its 640 by
    480, and [getFrameData] with room for its bytes returns true, hands
    those bytes over and only then clears the flag. *)
Theorem update_empty_queue_keeps_frame (c : MoqClientImpl) (n : nat) :
  reachable c ->
  frameQueue_ c = [] ->
  let c' := Nat.iter n (fun c => snd (update c)) c in
  update c = (connectionStatus_ c >=? 0, c) /\
  c' = c /\
  currentFrame_ c' = currentFrame_ c /\
  hasNewFrame_ c' = hasNewFrame_ c /\
  (hasNewFrame_ c = true ->
   (forall w h, getFrameInfo c' w h = (true, 640, 480)) /\
   (forall buffer bufferSize,
       Z.of_nat (length (data (currentFrame_ c))) <= bufferSize ->
       getFrameData c' buffer bufferSize
       = (true,
          data (currentFrame_ c)
            ++ drop (length (data (currentFrame_ c))) buffer,
          set_hasNewFrame false c))).
Proof.
  intros Hc Hq c'. subst c'. rewrite update_iter_empty by done.
  split; [by apply update_empty|].
  do 3 (split; [done|]).
  intros Hnew. split.
  - intros w h. unfold getFrameInfo. rewrite Hnew.
    destruct (produced_size _
                (inv_current_produced c (reachable_inv c Hc) Hnew))
      as (-> & -> & _).
    done.
  - intros buffer bufferSize Hle. by apply getFrameData_sufficient.
Qed.

(** Three polls of the polled session, whose queue is empty: its frame 0
    is still there to be read. *)
Lemma update_empty_queue_keeps_frame_witness :
  reachable polled_session /\
  frameQueue_ polled_session = [] /\
  hasNewFrame_ polled_session = true /\
  Nat.iter 3 (fun c => snd (update c)) polled_session = polled_session /\
  getFrameInfo (Nat.iter 3 (fun c => snd (update c)) polled_session) 0 0
  = (true, 640, 480).
Proof.
  pose proof (update_empty_queue_keeps_frame polled_session 3
                polled_session_reachable eq_refl)
    as (_ & Hsame & _ & _ & Hread).
  split; [exact polled_session_reachable|].
  split; [reflexivity|].
  split; [reflexivity|].
  split; [exact Hsame|].
  exact (proj1 (Hread eq_refl) 0 0).
Defined.

(** ** Timestamps *)

Lemma to_int_small z : INT_MIN <= z <= INT_MAX -> to_int z = z.
Proof.
  unfold INT_MIN, INT_MAX, to_int, wrap_signed. intros Hz.
  change (2 ^ (32 - 1)) with 2147483648.
  change (2 ^ 32) with 4294967296.
  rewrite Z.mod_small; lia.
Qed.

Lemma to_int64_small z :
  - 9223372036854775808 <= z <= 9223372036854775807 -> to_int64 z = z.
Proof.
  unfold to_int64, wrap_signed. intros Hz.
  change (2 ^ (64 - 1)) with 9223372036854775808.
  change (2 ^ 64) with 18446744073709551616.
  rewrite Z.mod_small; lia.
Qed.

Lemma workerFunction_step_iteration c frameCount :
  workerThread_ c = InLoop frameCount ->
  running_ c = true ->
  workerFunction_step c
  = set_workerThread (InLoop (to_int (frameCount + 1)))
      (push_if_room (generate_frame frameCount) c).
Proof.
  intros Hw Hrun. unfold workerFunction_step. by rewrite Hw, Hrun.
Qed.

Lemma polling_round c frameCount :
  workerThread_ c = InLoop frameCount ->
  running_ c = true ->
  frameQueue_ c = [] ->
  let c' := step EUpdate (step EWorker c) in
  frameQueue_ (step EWorker c) = [generate_frame frameCount] /\
  workerThread_ c' = InLoop (to_int (frameCount + 1)) /\
  running_ c' = true /\
  frameQueue_ c' = [] /\
  currentFrame_ c' = generate_frame frameCount.
Proof.
  intros Hw Hrun Hq c'. subst c'. cbn [step].
  rewrite (workerFunction_step_iteration c frameCount Hw Hrun).
  unfold push_if_room, update. rewrite Hq.
  cbn [length Nat.ltb Nat.leb app]. cbn [set_workerThread set_frameQueue
    frameQueue_ workerThread_ running_ currentFrame_ snd set_hasNewFrame
    set_currentFrame hasNewFrame_ connectionStatus_].
  by rewrite Hrun.
Qed.

Lemma polling_rounds_frames n : forall c frameCount,
  workerThread_ c = InLoop frameCount ->
  running_ c = true ->
  frameQueue_ c = [] ->
  pushed (polling_rounds n) c = generate_frame <$> frame_counts n frameCount /\
  drained (polling_rounds n) c = generate_frame <$> frame_counts n frameCount.
Proof.
  induction n as [|n IH]; intros c frameCount Hw Hrun Hq; [done|].
  destruct (polling_round c frameCount Hw Hrun Hq)
    as (Hq1 & Hw2 & Hrun2 & Hq2 & _).
  destruct (IH _ _ Hw2 Hrun2 Hq2) as [IHp IHd].
  cbn [polling_rounds pushed drained frame_counts fmap list_fmap].
  rewrite Hw, Hrun, Hq, Hq1. cbn [length Nat.ltb Nat.leb andb].
  rewrite IHp, IHd. done.
Qed.

Lemma steady_trace_frames n serverUrl streamPath targetLatencyMs :
  let c := MoqClientImpl_new serverUrl streamPath targetLatencyMs in
  pushed (steady_trace n) c = generate_frame <$> frame_counts n 0 /\
  drained (steady_trace n) c = generate_frame <$> frame_counts n 0.
Proof.
  intros c. unfold steady_trace.
  pose proof (polling_rounds_frames n (step EWorker (step EWorker c)) 0
                eq_refl eq_refl eq_refl) as [Hp Hd].
  split; [exact Hp|exact Hd].
Qed.

Lemma frame_counts_lookup n : forall frameCount i,
  (i < n)%nat ->
  INT_MIN <= frameCount ->
  frameCount + Z.of_nat n <= INT_MAX + 1 ->
  frame_counts n frameCount !! i = Some (frameCount + Z.of_nat i).
Proof.
  unfold INT_MIN, INT_MAX.
  induction n as [|n IH]; intros frameCount i Hi Hlo Hhi; [lia|].
  cbn [frame_counts]. destruct i as [|i].
  - cbn. f_equal. lia.
  - cbn [lookup list_lookup].
    rewrite to_int_small by (unfold INT_MIN, INT_MAX; lia).
    change (frame_counts n (frameCount + 1) !! i
            = Some (frameCount + Z.of_nat (S i))).
    rewrite IH by lia. f_equal. lia.
Qed.

Lemma steady_trace_timestamp n i serverUrl streamPath targetLatencyMs :
  (i < n)%nat ->
  Z.of_nat n <= INT_MAX + 1 ->
  let c := MoqClientImpl_new serverUrl streamPath targetLatencyMs in
  (timestamp <$> pushed (steady_trace n) c) !! i
  = Some (to_int64 (to_int (Z.of_nat i * 16667))) /\
  (timestamp <$> drained (steady_trace n) c) !! i
  = Some (to_int64 (to_int (Z.of_nat i * 16667))).
Proof.
  intros Hi Hn c.
  destruct (steady_trace_frames n serverUrl streamPath targetLatencyMs)
    as [Hp Hd].
  fold c in Hp, Hd. rewrite Hp, Hd.
  rewrite !list_lookup_fmap.
  rewrite (frame_counts_lookup n 0 i Hi) by (unfold INT_MIN; lia).
  cbn [fmap option_fmap option_map]. by rewrite generate_frame_timestamp.
Qed.

Lemma overflow_trace_timestamp i :
  (i < Z.to_nat 128848)%nat ->
  (timestamp <$> pushed overflow_trace fresh_session) !! i
  = Some (to_int64 (to_int (Z.of_nat i * 16667))) /\
  (timestamp <$> drained overflow_trace fresh_session) !! i
  = Some (to_int64 (to_int (Z.of_nat i * 16667))).
Proof.
  intros Hi. apply steady_trace_timestamp; [done|].
  unfold INT_MAX. lia.
Qed.

(** C5, at the failing run: the worker connects and then produces 128848
    frames, each polled before the next is made, so that none is dropped.
    Frame 128846 is pushed and drained with timestamp 2147476282; the next
    one, frame 128847, with timestamp -2147474347, because
    [frameCount * 16667] is computed in [int] and 128847 * 16667 exceeds
    [INT_MAX].  Neither the pushed nor the drained timestamps are strictly
    increasing. *)
Theorem timestamp_wraps_in_int :
  let pushed_ts := timestamp <$> pushed overflow_trace fresh_session in
  let drained_ts := timestamp <$> drained overflow_trace fresh_session in
  pushed_ts !! Z.to_nat 128846 = Some 2147476282 /\
  pushed_ts !! Z.to_nat 128847 = Some (-2147474347) /\
  drained_ts !! Z.to_nat 128846 = Some 2147476282 /\
  drained_ts !! Z.to_nat 128847 = Some (-2147474347) /\
  ~ strictly_increasing pushed_ts /\
  ~ strictly_increasing drained_ts.
Proof.
  intros pushed_ts drained_ts.
  assert (H1 : (Z.to_nat 128846 < Z.to_nat 128848)%nat) by lia.
  assert (H2 : (Z.to_nat 128847 < Z.to_nat 128848)%nat) by lia.
  assert (H3 : (Z.to_nat 128846 < Z.to_nat 128847)%nat) by lia.
  destruct (overflow_trace_timestamp (Z.to_nat 128846) H1) as [Hp1 Hd1].
  destruct (overflow_trace_timestamp (Z.to_nat 128847) H2) as [Hp2 Hd2].
  rewrite Z2Nat.id in Hp1, Hd1, Hp2, Hd2 by lia.
  change (to_int64 (to_int (128846 * 16667))) with 2147476282 in Hp1, Hd1.
  change (to_int64 (to_int (128847 * 16667))) with (-2147474347) in Hp2, Hd2.
  fold pushed_ts in Hp1, Hp2. fold drained_ts in Hd1, Hd2.
  split; [exact Hp1|]. split; [exact Hp2|].
  split; [exact Hd1|]. split; [exact Hd2|].
  split; intros Hinc.
  - specialize (Hinc _ _ _ _ H3 Hp1 Hp2). lia.
  - specialize (Hinc _ _ _ _ H3 Hd1 Hd2). lia.
Qed.


(** ** Timestamps before the overflow *)

Lemma step_workerThread e c :
  e <> EWorker -> workerThread_ (step e c) = workerThread_ c.
Proof.
  intros He. destruct e; cbn [step]; try done.
  - unfold update. by destruct (frameQueue_ c).
  - by destruct (getFrameData_cases c buffer bufferSize)
      as [->|(_ & _ & _ & ->)].
Qed.

Lemma pushed_other e tr c :
  e <> EWorker -> pushed (e :: tr) c = pushed tr (step e c).
Proof. intros He. by destruct e. Qed.

Lemma pushed_finished tr : forall c,
  workerThread_ c = Finished -> pushed tr c = [].
Proof.
  induction tr as [|e tr IH]; intros c Hw; [done|].
  destruct (decide (e = EWorker)) as [->|He].
  - cbn [pushed]. rewrite Hw. apply IH.
    cbn [step]. unfold workerFunction_step. by rewrite Hw.
  - rewrite pushed_other by done. apply IH.
    by rewrite step_workerThread.
Qed.

(** The frames pushed during a run are generated from strictly
    increasing values of [frameCount], as long as that counter stays
    within [int]. *)
Lemma pushed_counts tr : forall c,
  -2 <= next_count (workerThread_ c) ->
  next_count (workerThread_ c) + Z.of_nat (worker_steps tr) <= INT_MAX ->
  exists counts,
    pushed tr c = generate_frame <$> counts /\
    StronglySorted Z.lt counts /\
    Forall (fun x =>
              next_count (workerThread_ c) <= x
              /\ x < next_count (workerThread_ c) + Z.of_nat (worker_steps tr))
           counts.
Proof.
  unfold INT_MAX.
  induction tr as [|e tr IH]; intros c Hlo Hhi.
  { exists []. repeat split; constructor. }
  destruct (decide (e = EWorker)) as [->|He].
  2: { rewrite pushed_other by done.
       assert (Hsteps : worker_steps (e :: tr) = worker_steps tr)
         by by destruct e.
       rewrite Hsteps in *.
       destruct (IH (step e c)) as (counts & Hp & Hs & Hb);
         rewrite ?step_workerThread by done; try done.
       exists counts. by rewrite step_workerThread in Hb. }
  cbn [worker_steps] in *. cbn [pushed step].
  destruct (workerThread_ c) as [| |frameCount|] eqn:Hw;
    cbn [next_count] in *.
  - destruct (IH (workerFunction_step c)) as (counts & Hp & Hs & Hb);
      unfold workerFunction_step in *; rewrite Hw in *;
      cbn [workerThread_ set_workerThread next_count] in *; try lia.
    exists counts. split; [done|]. split; [done|].
    eapply Forall_impl; [exact Hb|]. cbn. lia.
  - destruct (IH (workerFunction_step c)) as (counts & Hp & Hs & Hb);
      unfold workerFunction_step in *; rewrite Hw in *;
      cbn [workerThread_ set_workerThread next_count] in *; try lia.
    exists counts. split; [done|]. split; [done|].
    eapply Forall_impl; [exact Hb|]. cbn. lia.
  - destruct (running_ c) eqn:Hrun; cbn [andb].
    2: { exists []. split; [|repeat constructor].
         rewrite pushed_finished; [done|].
         unfold workerFunction_step. by rewrite Hw, Hrun. }
    assert (Hnext : workerThread_ (workerFunction_step c)
                    = InLoop (frameCount + 1)).
    { rewrite (workerFunction_step_iteration c frameCount Hw Hrun).
      cbn [workerThread_ set_workerThread].
      rewrite to_int_small; [done|]. unfold INT_MIN, INT_MAX. lia. }
    destruct (IH (workerFunction_step c)) as (counts & Hp & Hs & Hb);
      rewrite ?Hnext; cbn [next_count]; try lia.
    rewrite Hnext in Hb. cbn [next_count] in Hb.
    destruct (length (frameQueue_ c) <? 5)%nat.
    + exists (frameCount :: counts). rewrite Hp.
      split; [done|]. split.
      * apply StronglySorted_cons. split; [|done].
        eapply Forall_impl; [exact Hb|]. cbn. lia.
      * constructor; [lia|].
        eapply Forall_impl; [exact Hb|]. cbn. lia.
    + exists counts. split; [done|]. split; [done|].
      eapply Forall_impl; [exact Hb|]. cbn. lia.
  - exists []. split; [|repeat constructor].
    rewrite pushed_finished; [done|].
    unfold workerFunction_step. by rewrite Hw.
Qed.

Lemma getFrameData_frameQueue c buffer bufferSize :
  frameQueue_ (snd (getFrameData c buffer bufferSize)) = frameQueue_ c.
Proof.
  by destruct (getFrameData_cases c buffer bufferSize)
    as [->|(_ & _ & _ & ->)].
Qed.

Lemma workerFunction_step_frameQueue c :
  frameQueue_ (workerFunction_step c)
  = match workerThread_ c with
    | InLoop frameCount =>
        if running_ c && (length (frameQueue_ c) <? 5)%nat
        then frameQueue_ c ++ [generate_frame frameCount]
        else frameQueue_ c
    | _ => frameQueue_ c
    end.
Proof.
  unfold workerFunction_step, push_if_room.
  destruct (workerThread_ c); [done|done| |done].
  destruct (running_ c); [|done].
  by destruct (length (frameQueue_ c) <? 5)%nat.
Qed.

(** The queue is first in, first out, and loses nothing it has accepted:
    what was queued or pushed is what was drained or is still queued. *)
Lemma queue_fifo tr : forall c,
  frameQueue_ c ++ pushed tr c = drained tr c ++ frameQueue_ (run tr c).
Proof.
  induction tr as [|e tr IH]; intros c.
  { cbn. by rewrite app_nil_r. }
  cbn [run foldl]. fold (run tr (step e c)).
  destruct e; cbn [pushed drained].
  - (* the worker *)
    rewrite <- IH. cbn [step]. rewrite workerFunction_step_frameQueue.
    destruct (workerThread_ c); try done.
    destruct (running_ c && (length (frameQueue_ c) <? 5)%nat); [|done].
    by rewrite <- app_assoc.
  - (* update *)
    destruct (frameQueue_ c) as [|front rest] eqn:Hq.
    + rewrite <- IH. cbn [step]. rewrite (update_empty c Hq).
      cbn [snd]. by rewrite Hq.
    + cbn [app]. f_equal. rewrite <- IH. cbn [step].
      unfold update. rewrite Hq. reflexivity.
  - by rewrite <- IH.
  - rewrite <- IH. cbn [step]. by rewrite getFrameData_frameQueue.
  - by rewrite <- IH.
  - by rewrite <- IH.
Qed.

Lemma StronglySorted_strictly_increasing (l : list Z) :
  StronglySorted Z.lt l -> strictly_increasing l.
Proof.
  induction 1 as [|x l _ IH Hx]; intros i j a b Hij Hi Hj.
  { by rewrite lookup_nil in Hi. }
  destruct j as [|j]; [lia|]. cbn in Hj.
  destruct i as [|i]; cbn in Hi.
  - injection Hi as ->.
    rewrite Forall_forall in Hx. apply Hx.
    by eapply list_elem_of_lookup_2.
  - eapply (IH i j); [lia|done|done].
Qed.

Lemma strictly_increasing_prefix (l k : list Z) :
  strictly_increasing (l ++ k) -> strictly_increasing l.
Proof.
  intros Hinc i j a b Hij Hi Hj.
  apply (Hinc i j); [done|by apply lookup_app_l_Some..].
Qed.

Lemma generate_frame_timestamp_small frameCount :
  -2 <= frameCount <= 128846 ->
  timestamp (generate_frame frameCount) = frameCount * 16667.
Proof.
  intros Hfc. rewrite generate_frame_timestamp.
  rewrite to_int_small by (unfold INT_MIN, INT_MAX; lia).
  apply to_int64_small. lia.
Qed.

Lemma timestamps_sorted (counts : list Z) :
  StronglySorted Z.lt counts ->
  Forall (fun x => -2 <= x <= 128846) counts ->
  StronglySorted Z.lt (timestamp <$> (generate_frame <$> counts)).
Proof.
  induction 1 as [|x counts Hs IH Hx]; intros Hb; [constructor|].
  apply Forall_cons in Hb as [Hbx Hb].
  cbn [fmap list_fmap]. constructor; [by apply IH|].
  rewrite <- list_fmap_compose. apply Forall_fmap.
  rewrite Forall_forall in Hx, Hb. apply Forall_forall. intros y Hy.
  unfold compose.
  rewrite (generate_frame_timestamp_small x) by done.
  rewrite (generate_frame_timestamp_small y) by auto.
  specialize (Hx y Hy). lia.
Qed.

(** Up to the 128849th step of the worker (two to connect, then frames 0
    to 128846) the timestamps pushed and the timestamps drained are
    strictly increasing, whatever the host does and however many frames
    are dropped at a full queue. *)
Lemma timestamps_increase_before_overflow tr serverUrl streamPath
    targetLatencyMs :
  Z.of_nat (worker_steps tr) <= 128849 ->
  let c := MoqClientImpl_new serverUrl streamPath targetLatencyMs in
  strictly_increasing (timestamp <$> pushed tr c) /\
  strictly_increasing (timestamp <$> drained tr c).
Proof.
  intros Hsteps c.
  destruct (pushed_counts tr c) as (counts & Hp & Hs & Hb);
    [cbn; lia|cbn; unfold INT_MAX; lia|].
  cbn [c MoqClientImpl_new workerThread_ next_count] in Hb.
  assert (Hpushed : strictly_increasing (timestamp <$> pushed tr c)).
  { rewrite Hp. apply StronglySorted_strictly_increasing.
    apply timestamps_sorted; [done|].
    eapply Forall_impl; [exact Hb|]. cbn. lia. }
  split; [done|].
  pose proof (queue_fifo tr c) as Hfifo. cbn [c MoqClientImpl_new frameQueue_ app] in Hfifo.
  fold c in Hfifo. rewrite Hfifo, fmap_app in Hpushed.
  by apply strictly_increasing_prefix in Hpushed.
Qed.
(** ** Lock scopes *)

(** Induction on code, with the hypothesis available for every statement
    of a body. *)
Lemma Code_nested_ind (P : Code -> Prop) :
  (forall w, P (Do w)) ->
  (forall m body, Forall P body -> P (LockGuard m body)) ->
  (forall body, Forall P body -> P (While body)) ->
  forall c, P c.
Proof.
  intros Hdo Hguard Hwhile.
  fix IH 1. intros [w|m body|body].
  - apply Hdo.
  - apply Hguard. induction body as [|c body IHbody]; constructor; auto.
  - apply Hwhile. induction body as [|c body IHbody]; constructor; auto.
Qed.

(** A statement runs with at least the locks its context holds, and a
    statement inside a guard on [m] with [m]. *)
Lemma locks_held_context c : forall held w held',
  In (w, held') (locks_held held c) -> held `suffix_of` held'.
Proof.
  induction c as [w0|m body IH|body IH] using Code_nested_ind;
    intros held w held' Hin; cbn [locks_held] in Hin.
  - destruct Hin as [[= _ <-]|[]]. reflexivity.
  - apply in_flat_map in Hin as (c & Hc & Hin).
    rewrite Forall_forall in IH.
    apply (IH c (proj2 (list_elem_of_In _ _) Hc)) in Hin.
    etrans; [|exact Hin]. by apply suffix_cons_r.
  - apply in_flat_map in Hin as (c & Hc & Hin).
    rewrite Forall_forall in IH.
    by apply (IH c (proj2 (list_elem_of_In _ _) Hc)) in Hin.
Qed.

Lemma locks_held_guard m body held w held' :
  In (w, held') (locks_held held (LockGuard m body)) -> In m held'.
Proof.
  cbn [locks_held]. intros Hin.
  apply in_flat_map in Hin as (c & _ & Hin).
  apply locks_held_context in Hin as [k ->].
  apply in_or_app. right. by left.
Qed.

(** The steps of the interleaving model are the guarded blocks of the
    worker's code: the two status writes, and one pass over the loop
    body. *)
Lemma workerFunction_step_blocks c :
  workerFunction_step c
  = match workerThread_ c with
    | AtStart =>
        match worker_exec (LockGuard mutex_ [Do (StatusWrite 1)])
                (mkWorkerLocals 0 DecodedFrame_default, c) with
        | Some (_, c') => set_workerThread Connecting c'
        | None => c
        end
    | Connecting =>
        match worker_exec (LockGuard mutex_ [Do (StatusWrite 2)])
                (mkWorkerLocals 0 DecodedFrame_default, c) with
        | Some (_, c') => set_workerThread (InLoop 0) c'
        | None => c
        end
    | InLoop frameCount =>
        match worker_exec (While workerFunction_loop_body)
                (mkWorkerLocals frameCount DecodedFrame_default, c) with
        | Some (locals, c') =>
            set_workerThread (InLoop (local_frameCount locals)) c'
        | None => set_workerThread Finished c
        end
    | Finished => c
    end.
Proof.
  unfold workerFunction_step.
  destruct (workerThread_ c) as [| |frameCount|]; try reflexivity.
  cbn [worker_exec workerFunction_loop_body worker_effect].
  destruct (running_ c); reflexivity.
Qed.

Lemma workerFunction_locks :
  locks_held_in workerFunction_code
  = [(StatusWrite 1, [mutex_]);
     (Sleep 500, []);
     (StatusWrite 2, [mutex_]);
     (RunningTest, [mutex_]);
     (FrameGeneration, [mutex_]);
     (QueuePush, [mutex_]);
     (FrameCountIncrement, []);
     (Sleep 16, [])].
Proof. reflexivity. Qed.

Lemma MoqGetFrameData_locks :
  locks_held_in MoqGetFrameData_code
  = [(RegistryFind, [g_clientsMutex]);
     (PixelCopy, [mutex_; g_clientsMutex])].
Proof. reflexivity. Qed.

Lemma exported_code_guarded code :
  In code exported_code ->
  exists body, code = [LockGuard g_clientsMutex body].
Proof.
  unfold exported_code. cbn [In].
  intros [<-|[<-|[<-|[<-|[<-|[<-|[]]]]]]]; eexists; reflexivity.
Qed.

(** C9, as the specification states it, fails twice: the worker generates
    its frame with the session's [mutex_] held (the generation is inside
    the block of lines 111-145), and [MoqGetFrameData] copies the pixels
    with [g_clientsMutex] held, together with [mutex_]. *)
Lemma slow_work_under_lock :
  In (FrameGeneration, [mutex_]) (locks_held_in workerFunction_code) /\
  In (PixelCopy, [mutex_; g_clientsMutex])
     (locks_held_in MoqGetFrameData_code) /\
  ~ slow_work_unlocked workerFunction_code /\
  ~ slow_work_unlocked MoqGetFrameData_code.
Proof.
  assert (Hgen : In (FrameGeneration, [mutex_])
                    (locks_held_in workerFunction_code)).
  { rewrite workerFunction_locks. cbn [In]. auto 10. }
  assert (Hcopy : In (PixelCopy, [mutex_; g_clientsMutex])
                     (locks_held_in MoqGetFrameData_code)).
  { rewrite MoqGetFrameData_locks. cbn [In]. auto. }
  split; [exact Hgen|]. split; [exact Hcopy|].
  split; intros Hclaim.
  - specialize (Hclaim _ _ Hgen eq_refl). discriminate.
  - specialize (Hclaim _ _ Hcopy eq_refl). discriminate.
Qed.

(** C9, amended: the worker never holds [g_clientsMutex]; it sleeps and
    increments [frameCount] with no lock held, and holds [mutex_], and
    nothing else, for each status write and from the running test through
    the frame generation to the queue push.  Every exported function holds
    [g_clientsMutex] for each of its statements, those of the method it
    delegates to included: the pixel copy of [MoqGetFrameData] runs under
    [mutex_] and [g_clientsMutex] both. *)
Theorem lock_scopes :
  (forall w held,
      In (w, held) (locks_held_in workerFunction_code) ->
      ~ In g_clientsMutex held /\
      match w with
      | Sleep _ | FrameCountIncrement => held = []
      | _ => held = [mutex_]
      end) /\
  (forall code w held,
      In code exported_code ->
      In (w, held) (locks_held_in code) ->
      In g_clientsMutex held) /\
  (forall held,
      In (PixelCopy, held) (locks_held_in MoqGetFrameData_code) ->
      held = [mutex_; g_clientsMutex]).
Proof.
  split; [|split].
  - intros w held Hin. rewrite workerFunction_locks in Hin. cbn [In] in Hin.
    repeat destruct Hin as [[= <- <-]|Hin]; try destruct Hin;
      (split; [cbn [In]; intros [[=]|[]] || intros [] | reflexivity]).
  - intros code w held Hcode Hin.
    destruct (exported_code_guarded code Hcode) as [body ->].
    unfold locks_held_in in Hin. cbn [flat_map] in Hin.
    rewrite app_nil_r in Hin.
    by apply locks_held_guard in Hin.
  - intros held Hin. rewrite MoqGetFrameData_locks in Hin. cbn [In] in Hin.
    destruct Hin as [[=]|[[= <-]|[]]]. reflexivity.
Qed.

(** The pixel copy of [MoqGetFrameData], an exported function: it runs
    with the registry lock held. *)
Lemma lock_scopes_witness :
  In MoqGetFrameData_code exported_code /\
  In (PixelCopy, [mutex_; g_clientsMutex])
     (locks_held_in MoqGetFrameData_code) /\
  In g_clientsMutex [mutex_; g_clientsMutex].
Proof.
  assert (Hcode : In MoqGetFrameData_code exported_code).
  { unfold exported_code. cbn [In]. auto 10. }
  assert (Hcopy : In (PixelCopy, [mutex_; g_clientsMutex])
                     (locks_held_in MoqGetFrameData_code)).
  { rewrite MoqGetFrameData_locks. cbn [In]. auto. }
  split; [exact Hcode|]. split; [exact Hcopy|].
  exact (proj1 (proj2 lock_scopes) _ _ _ Hcode Hcopy).
Defined.

(** ** The pixels of a generated frame *)

Lemma write_pixel_640 frameCount y x (d : list Z) :
  0 <= x < 640 -> 0 <= y < 480 ->
  write_pixel 640 frameCount y x d
  = <[Z.to_nat ((y * 640 + x) * 4 + 3) := gradient_byte frameCount x y 3]>
      (<[Z.to_nat ((y * 640 + x) * 4 + 2) := gradient_byte frameCount x y 2]>
         (<[Z.to_nat ((y * 640 + x) * 4 + 1) := gradient_byte frameCount x y 1]>
            (<[Z.to_nat ((y * 640 + x) * 4) := gradient_byte frameCount x y 0]>
               d))).
Proof.
  intros Hx Hy. unfold write_pixel.
  rewrite (to_int_small (y * 640)) by (unfold INT_MIN, INT_MAX; lia).
  rewrite (to_int_small (y * 640 + x)) by (unfold INT_MIN, INT_MAX; lia).
  rewrite (to_int_small ((y * 640 + x) * 4))
    by (unfold INT_MIN, INT_MAX; lia).
  rewrite !(to_int_small ((y * 640 + x) * 4 + _))
    by (unfold INT_MIN, INT_MAX; lia).
  reflexivity.
Qed.

(** A pixel write on a vector: the four bytes of the pixel are set, every
    other byte is kept. *)
Lemma write_pixel_lookup frameCount y x (d : list Z) (j : Z) :
  0 <= x < 640 -> 0 <= y < 480 ->
  0 <= j < Z.of_nat (length d) ->
  write_pixel 640 frameCount y x d !! Z.to_nat j
  = if decide ((y * 640 + x) * 4 <= j < (y * 640 + x) * 4 + 4)
    then Some (gradient_byte frameCount x y (j - (y * 640 + x) * 4))
    else d !! Z.to_nat j.
Proof.
  intros Hx Hy Hj. rewrite write_pixel_640 by done.
  set (i := (y * 640 + x) * 4) in *.
  assert (Hi : 0 <= i) by (subst i; lia).
  destruct (decide (j = i + 3)) as [->|H3].
  { rewrite list_lookup_insert_eq by (rewrite !length_insert; lia).
    rewrite decide_True by lia. do 2 f_equal. lia. }
  rewrite list_lookup_insert_ne by lia.
  destruct (decide (j = i + 2)) as [->|H2].
  { rewrite list_lookup_insert_eq by (rewrite !length_insert; lia).
    rewrite decide_True by lia. do 2 f_equal. lia. }
  rewrite list_lookup_insert_ne by lia.
  destruct (decide (j = i + 1)) as [->|H1].
  { rewrite list_lookup_insert_eq by (rewrite !length_insert; lia).
    rewrite decide_True by lia. do 2 f_equal. lia. }
  rewrite list_lookup_insert_ne by lia.
  destruct (decide (j = i)) as [->|H0].
  { rewrite list_lookup_insert_eq by lia.
    rewrite decide_True by lia. do 2 f_equal. lia. }
  rewrite list_lookup_insert_ne by lia.
  by rewrite decide_False by lia.
Qed.

Lemma foldl_lookup_keep {A} (f : list Z -> A -> list Z) (l : list A)
    (j : nat) (v : Z) :
  (forall d a, a ∈ l -> d !! j = Some v -> f d a !! j = Some v) ->
  forall d, d !! j = Some v -> foldl f d l !! j = Some v.
Proof.
  induction l as [|a l IH]; intros Hkeep d Hd; [done|].
  cbn [foldl]. apply IH.
  - intros d' a' Ha'. apply Hkeep. by apply list_elem_of_further.
  - apply Hkeep; [apply list_elem_of_here|done].
Qed.

(** A loop over writes: once some iteration has set position [j] to [v]
    and no iteration sets it to anything else, it is [v] at the end. *)
Lemma foldl_lookup_set {A} (f : list Z -> A -> list Z) (l : list A)
    (j : nat) (v : Z) (a0 : A) :
  a0 ∈ l ->
  (forall d a, length (f d a) = length d) ->
  (forall d a, a ∈ l -> d !! j = Some v -> f d a !! j = Some v) ->
  (forall d, (j < length d)%nat -> f d a0 !! j = Some v) ->
  forall d, (j < length d)%nat -> foldl f d l !! j = Some v.
Proof.
  induction l as [|a l IH]; intros Hin Hlen Hkeep Hset d Hj.
  { by apply elem_of_nil in Hin. }
  cbn [foldl]. apply elem_of_cons in Hin as [<-|Hin].
  - apply foldl_lookup_keep.
    + intros d' a' Ha'. apply Hkeep. by apply list_elem_of_further.
    + by apply Hset.
  - apply IH; try done.
    + intros d' a' Ha'. apply Hkeep. by apply list_elem_of_further.
    + by rewrite Hlen.
Qed.

Lemma write_pixel_keep frameCount y x y0 x0 k (d : list Z) :
  0 <= x < 640 -> 0 <= y < 480 ->
  0 <= x0 < 640 -> 0 <= y0 < 480 -> 0 <= k < 4 ->
  d !! Z.to_nat ((y0 * 640 + x0) * 4 + k)
  = Some (gradient_byte frameCount x0 y0 k) ->
  write_pixel 640 frameCount y x d !! Z.to_nat ((y0 * 640 + x0) * 4 + k)
  = Some (gradient_byte frameCount x0 y0 k).
Proof.
  intros Hx Hy Hx0 Hy0 Hk Hd.
  pose proof (lookup_lt_Some _ _ _ Hd) as Hlt.
  rewrite write_pixel_lookup by lia.
  case_decide as Hin; [|done].
  assert (y = y0 /\ x = x0) as [-> ->] by lia.
  do 2 f_equal. lia.
Qed.

Lemma write_pixel_set frameCount y x k (d : list Z) :
  0 <= x < 640 -> 0 <= y < 480 -> 0 <= k < 4 ->
  (Z.to_nat ((y * 640 + x) * 4 + k) < length d)%nat ->
  write_pixel 640 frameCount y x d !! Z.to_nat ((y * 640 + x) * 4 + k)
  = Some (gradient_byte frameCount x y k).
Proof.
  intros Hx Hy Hk Hlt. rewrite write_pixel_lookup by lia.
  rewrite decide_True by lia. do 2 f_equal. lia.
Qed.

Lemma fill_gradient_pixel frameCount x y k (d : list Z) :
  0 <= x < 640 -> 0 <= y < 480 -> 0 <= k < 4 ->
  Z.of_nat (length d) = 1228800 ->
  fill_gradient 640 480 frameCount d !! Z.to_nat ((y * 640 + x) * 4 + k)
  = Some (gradient_byte frameCount x y k).
Proof.
  intros Hx Hy Hk Hlen. unfold fill_gradient.
  apply (foldl_lookup_set _ _ _ _ y).
  - apply elem_of_seqZ. lia.
  - intros d' y'. apply length_foldl_preserved. intros d'' x'.
    apply length_write_pixel.
  - intros d' y' Hy' Hd'. apply elem_of_seqZ in Hy'.
    apply foldl_lookup_keep; [|done].
    intros d'' x' Hx' Hd''. apply elem_of_seqZ in Hx'.
    apply write_pixel_keep; (done || lia).
  - intros d' Hlt.
    apply (foldl_lookup_set _ _ _ _ x).
    + apply elem_of_seqZ. lia.
    + intros d'' x'. apply length_write_pixel.
    + intros d'' x' Hx' Hd''. apply elem_of_seqZ in Hx'.
      apply write_pixel_keep; (done || lia).
    + intros d'' Hlt''. by apply write_pixel_set.
    + done.
  - lia.
Qed.

Lemma gradient_byte_plain frameCount x y :
  0 <= x < 640 -> 0 <= y < 480 -> 0 <= frameCount <= 700000000 ->
  gradient_byte frameCount x y 0 = (x + frameCount) mod 255 /\
  gradient_byte frameCount x y 1 = (y + frameCount * 2) mod 255 /\
  gradient_byte frameCount x y 2 = (x + y + frameCount * 3) mod 255 /\
  gradient_byte frameCount x y 3 = 255.
Proof.
  intros Hx Hy Hfc.
  assert (Hbyte : forall z, 0 <= z -> to_uint8 (Z.rem z 255) = z mod 255).
  { intros z Hz. unfold to_uint8. rewrite Z.rem_mod_nonneg by lia.
    apply Z.mod_small. pose proof (Z.mod_pos_bound z 255). lia. }
  unfold gradient_byte. cbn [decide].
  rewrite !decide_True by done.
  rewrite !decide_False by done. rewrite !decide_True by done.
  rewrite !decide_False by done. rewrite !decide_True by done.
  rewrite !decide_False by done.
  rewrite (to_int_small (frameCount * 2)) by (unfold INT_MIN, INT_MAX; lia).
  rewrite (to_int_small (frameCount * 3)) by (unfold INT_MIN, INT_MAX; lia).
  rewrite (to_int_small (x + y)) by (unfold INT_MIN, INT_MAX; lia).
  rewrite !to_int_small by (unfold INT_MIN, INT_MAX; lia).
  rewrite !Hbyte by lia. done.
Qed.

Lemma gradient_byte_plain_alpha frameCount x y :
  255 = gradient_byte frameCount x y 3.
Proof. reflexivity. Qed.

Lemma gradient_byte_range frameCount x y k :
  0 <= gradient_byte frameCount x y k <= 255.
Proof.
  unfold gradient_byte, to_uint8.
  repeat case_decide; try lia;
    match goal with
    | |- context [?a mod 256] => pose proof (Z.mod_pos_bound a 256); lia
    end.
Qed.

Lemma generate_frame_pixels_aux (frameCount x y k : Z) :
  0 <= x < 640 -> 0 <= y < 480 -> 0 <= k < 4 ->
  data (generate_frame frameCount) !! Z.to_nat ((y * 640 + x) * 4 + k)
  = Some (gradient_byte frameCount x y k) /\
  0 <= gradient_byte frameCount x y k <= 255 /\
  data (generate_frame frameCount) !! Z.to_nat ((y * 640 + x) * 4 + 3)
  = Some 255.
Proof.
  intros Hx Hy Hk.
  assert (Hlen : Z.of_nat (length (vector_resize [] 1228800)) = 1228800)
    by (rewrite length_vector_resize_nil; lia).
  rewrite generate_frame_data.
  split; [exact (fill_gradient_pixel frameCount x y k _ Hx Hy Hk Hlen)|].
  split; [apply gradient_byte_range|].
  assert (H3 : 0 <= 3 < 4) by lia.
  pose proof (fill_gradient_pixel frameCount x y 3 _ Hx Hy H3 Hlen) as Ha.
  destruct (gradient_byte_plain_alpha frameCount x y). exact Ha.
Qed.

(** X1: in the frame the worker generates for any [frameCount], the four
    bytes at offset [(y * 640 + x) * 4] are the red, green, blue and alpha
    values lines 130-137 compute for pixel [(x, y)]: row-major RGBA, each
    a byte, alpha always 255; while [frameCount] is at most 700000000 no
    [int] wraps and they are [(x + frameCount) % 255],
    [(y + 2 * frameCount) % 255] and [(x + y + 3 * frameCount) % 255]. *)
Theorem generate_frame_pixels (frameCount x y k : Z) :
  0 <= x < 640 -> 0 <= y < 480 -> 0 <= k < 4 ->
  data (generate_frame frameCount) !! Z.to_nat ((y * 640 + x) * 4 + k)
  = Some (gradient_byte frameCount x y k) /\
  0 <= gradient_byte frameCount x y k <= 255 /\
  data (generate_frame frameCount) !! Z.to_nat ((y * 640 + x) * 4 + 3)
  = Some 255 /\
  (0 <= frameCount <= 700000000 ->
   gradient_byte frameCount x y 0 = (x + frameCount) mod 255 /\
   gradient_byte frameCount x y 1 = (y + frameCount * 2) mod 255 /\
   gradient_byte frameCount x y 2 = (x + y + frameCount * 3) mod 255).
Proof.
  intros Hx Hy Hk.
  destruct (generate_frame_pixels_aux frameCount x y k Hx Hy Hk)
    as (Hbyte & Hrange & Halpha).
  split; [exact Hbyte|]. split; [exact Hrange|].
  split.
  - exact Halpha.
  - intros Hfc.
    destruct (gradient_byte_plain frameCount x y Hx Hy Hfc)
      as (Hr & Hg & Hb & _).
    split; [exact Hr|]. split; [exact Hg|exact Hb].
Qed.

(** The green byte of pixel (10, 20) of frame 300. *)
Lemma generate_frame_pixels_witness :
  data (generate_frame 300) !! Z.to_nat ((20 * 640 + 10) * 4 + 1)
  = Some ((20 + 300 * 2) mod 255).
Proof.
  pose proof (generate_frame_pixels 300 10 20 1 ltac:(lia) ltac:(lia)
                ltac:(lia)) as (Hbyte & _ & _ & Hplain).
  destruct (Hplain ltac:(lia)) as (_ & Hgreen & _).
  rewrite Hbyte, Hgreen. reflexivity.
Defined.

(** ** Copying a frame out *)

(** X2: on a session with an unread frame, [getFrameData] given room for
    1228800 bytes returns true, overwrites exactly the first 1228800 bytes
    of the caller's buffer with the frame's pixels (every alpha byte 255),
    leaves the rest of a longer buffer and the buffer's length as they
    were, and changes nothing in the session but the unread flag: every
    other member, the worker's state included, is as before. *)
Theorem getFrameData_copies_frame (c : MoqClientImpl) (buffer : list Z)
    (bufferSize : Z) :
  reachable c ->
  hasNewFrame_ c = true ->
  1228800 <= bufferSize ->
  1228800 <= Z.of_nat (length buffer) ->
  exists buffer' c',
    getFrameData c buffer bufferSize = (true, buffer', c') /\
    length buffer' = length buffer /\
    take (Z.to_nat 1228800) buffer' = data (currentFrame_ c) /\
    drop (Z.to_nat 1228800) buffer' = drop (Z.to_nat 1228800) buffer /\
    (forall x y, 0 <= x < 640 -> 0 <= y < 480 ->
                 buffer' !! Z.to_nat ((y * 640 + x) * 4 + 3) = Some 255) /\
    c' = set_hasNewFrame false c /\
    hasNewFrame_ c' = false /\
    currentFrame_ c' = currentFrame_ c /\
    frameQueue_ c' = frameQueue_ c /\
    connectionStatus_ c' = connectionStatus_ c /\
    running_ c' = running_ c /\
    workerThread_ c' = workerThread_ c /\
    serverUrl_ c' = serverUrl_ c /\
    streamPath_ c' = streamPath_ c /\
    targetLatencyMs_ c' = targetLatencyMs_ c.
Proof.
  intros Hc Hnew Hsize Hbuf.
  destruct (inv_current_produced c (reachable_inv c Hc) Hnew)
    as [frameCount Hframe].
  assert (Hlen : Z.of_nat (length (data (currentFrame_ c))) = 1228800)
    by (rewrite Hframe; apply generate_frame_size).
  assert (Hnat : length (data (currentFrame_ c)) = Z.to_nat 1228800) by lia.
  eexists _, _. split.
  { apply getFrameData_sufficient; [exact Hc|exact Hnew|lia]. }
  split; [rewrite length_app, length_drop; lia|].
  split; [rewrite <- Hnat; apply take_app_length|].
  split; [rewrite <- Hnat; by rewrite drop_app_length|].
  split; [|by repeat split].
  intros x y Hx Hy.
  rewrite lookup_app_l by lia.
  rewrite Hframe.
  assert (H3 : 0 <= 3 < 4) by lia.
  exact (proj2 (proj2 (generate_frame_pixels_aux frameCount x y 3
                         Hx Hy H3))).
Qed.

Lemma zero_buffer_length : Z.of_nat (length zero_buffer) = 1228800.
Proof. unfold zero_buffer. rewrite length_replicate. lia. Qed.

(** The polled session read into the zeroed full-frame buffer. *)
Lemma getFrameData_copies_frame_witness :
  exists buffer' c',
    getFrameData polled_session zero_buffer 1228800 = (true, buffer', c') /\
    take (Z.to_nat 1228800) buffer' = data (currentFrame_ polled_session) /\
    buffer' !! Z.to_nat ((0 * 640 + 0) * 4 + 3) = Some 255.
Proof.
  assert (Hbound : 1228800 <= 1228800) by lia.
  assert (Hbuf : 1228800 <= Z.of_nat (length zero_buffer))
    by (rewrite zero_buffer_length; lia).
  destruct (getFrameData_copies_frame polled_session zero_buffer 1228800
              polled_session_reachable eq_refl Hbound Hbuf)
    as (buffer' & c' & Hcall & _ & Htake & _ & Halpha & _).
  exists buffer', c'. split; [exact Hcall|]. split; [exact Htake|].
  apply Halpha; lia.
Defined.

(** ** Creating and destroying clients *)

Lemma Plugin_eq p q :
  g_clients p = g_clients q -> g_nextClientId p = g_nextClientId q -> p = q.
Proof. destruct p, q. cbn. by intros -> ->. Qed.

Lemma plugin_step_nextClientId call p :
  g_nextClientId (plugin_step call p)
  = match call with
    | CallCreate _ _ _ => to_int (g_nextClientId p + 1)
    | _ => g_nextClientId p
    end.
Proof.
  destruct call as [u s t|h|h|h w0 h0|h buffer n|h|h]; cbn [plugin_step];
    try reflexivity.
  - unfold MoqDestroyClient. by destruct (g_clients p !! h).
  - unfold MoqUpdateClient. destruct (g_clients p !! h) as [c|]; [|done].
    by destruct (update c).
  - unfold MoqGetFrameInfo. by destruct (g_clients p !! h).
  - unfold MoqGetFrameData. destruct (g_clients p !! h) as [c|]; [|done].
    by destruct (getFrameData c buffer n) as [[? ?] ?].
  - unfold MoqGetConnectionStatus. by destruct (g_clients p !! h).
Qed.

Lemma returned_handles_seq calls : forall p,
  INT_MIN <= g_nextClientId p ->
  g_nextClientId p + Z.of_nat (creates calls) <= INT_MAX ->
  returned_handles calls p = seqZ (g_nextClientId p) (Z.of_nat (creates calls))
  /\ g_nextClientId (plugin_run calls p)
     = g_nextClientId p + Z.of_nat (creates calls).
Proof.
  unfold INT_MIN, INT_MAX.
  induction calls as [|call calls IH]; intros p Hlo Hhi.
  { cbn. split; [done|lia]. }
  cbn [plugin_run foldl]. fold (plugin_run calls (plugin_step call p)).
  pose proof (plugin_step_nextClientId call p) as Hnext.
  destruct call as [u s t|h|h|h w0 h0|h buffer n|h|h];
    cbn [returned_handles creates] in *;
    try (rewrite <- Hnext; apply IH; rewrite Hnext; lia).
  rewrite to_int_small in Hnext by (unfold INT_MIN, INT_MAX; lia).
  destruct (IH (plugin_step (CallCreate u s t) p)) as [Hret Hid];
    rewrite ?Hnext; try lia.
  rewrite Hret, Hid, Hnext. split; [|lia].
  rewrite (seqZ_cons (g_nextClientId p)) by lia.
  f_equal. f_equal; lia.
Qed.

(** X4: from the initial plugin, and for as long as fewer than [INT_MAX]
    clients have been created, the handles [MoqCreateClient] returns are
    1, 2, 3, ... in order, whatever other calls come in between: they are
    positive and pairwise different, a handle is never handed out again
    after its client was destroyed, and only returned handles are ever
    registered (0 and the negative numbers never are). *)
Theorem handles_are_sequential (calls : list Call) :
  Z.of_nat (creates calls) < INT_MAX ->
  returned_handles calls Plugin_init = seqZ 1 (Z.of_nat (creates calls)) /\
  NoDup (returned_handles calls Plugin_init) /\
  g_nextClientId (plugin_run calls Plugin_init)
  = 1 + Z.of_nat (creates calls) /\
  forall client,
    is_Some (g_clients (plugin_run calls Plugin_init) !! client) ->
    1 <= client <= Z.of_nat (creates calls).
Proof.
  unfold INT_MAX. intros Hn.
  destruct (returned_handles_seq calls Plugin_init) as [Hret Hid];
    [unfold INT_MIN; cbn; lia|unfold INT_MAX; cbn; lia|].
  cbn [Plugin_init g_nextClientId] in Hret, Hid.
  split; [exact Hret|]. split; [rewrite Hret; apply NoDup_seqZ|].
  split; [exact Hid|].
  intros client Hreg.
  destruct (registered_was_returned calls Plugin_init client Hreg)
    as [[c Hc]|Hin].
  - by rewrite fresh_plugin_absent in Hc.
  - rewrite Hret in Hin. apply elem_of_seqZ in Hin. lia.
Qed.

(** Create, create, destroy the first, create: the handles are 1, 2, 3. *)
Lemma handles_are_sequential_witness :
  let calls := [CallCreate "a" "s" 100; CallCreate "b" "s" 100;
                CallDestroy 1; CallCreate "c" "s" 100] in
  Z.of_nat (creates calls) < INT_MAX /\
  returned_handles calls Plugin_init = [1; 2; 3] /\
  g_clients (plugin_run calls Plugin_init) !! 0 = None.
Proof.
  intros calls.
  assert (Hn : Z.of_nat (creates calls) < INT_MAX) by (cbn; reflexivity).
  destruct (handles_are_sequential calls Hn) as (Hret & _ & _ & Hreg).
  split; [exact Hn|]. split; [exact Hret|].
  destruct (g_clients (plugin_run calls Plugin_init) !! 0) eqn:H0;
    [|reflexivity].
  assert (Hsome : is_Some (g_clients (plugin_run calls Plugin_init) !! 0))
    by (rewrite H0; eauto).
  apply Hreg in Hsome. lia.
Defined.

(** X5: [MoqDestroyClient] removes the handle and nothing else: every
    other handle keeps its session and [g_nextClientId] keeps its value;
    destroying again changes nothing; and destroying a client right after
    creating it gives back the registry as it was before the creation,
    while the handle counter stays advanced. *)
Theorem destroy_client_removes (p : Plugin) (client : Z)
    (serverUrl streamPath : string) (targetLatencyMs : Z) :
  g_clients (MoqDestroyClient p client) !! client = None /\
  (forall other, other <> client ->
     g_clients (MoqDestroyClient p client) !! other = g_clients p !! other) /\
  g_nextClientId (MoqDestroyClient p client) = g_nextClientId p /\
  MoqDestroyClient (MoqDestroyClient p client) client
  = MoqDestroyClient p client /\
  (g_clients p !! g_nextClientId p = None ->
   let created := MoqCreateClient p serverUrl streamPath targetLatencyMs in
   g_clients (MoqDestroyClient (snd created) (fst created)) = g_clients p /\
   g_nextClientId (MoqDestroyClient (snd created) (fst created))
   = to_int (g_nextClientId p + 1)).
Proof.
  split; [apply destroyed_handle_absent|].
  split; [intros other Hne; by apply MoqDestroyClient_other|].
  split; [unfold MoqDestroyClient; by destruct (g_clients p !! client)|].
  split.
  - unfold MoqDestroyClient at 1.
    by rewrite destroyed_handle_absent.
  - intros Hfree created. subst created. cbn [MoqCreateClient fst snd].
    unfold MoqDestroyClient. cbn [g_clients].
    rewrite lookup_insert_eq. cbn [set_clients g_clients g_nextClientId].
    split; [|reflexivity].
    rewrite delete_insert_eq. by apply delete_id.
Qed.

Lemma destroy_client_removes_witness :
  g_clients Plugin_init !! g_nextClientId Plugin_init = None /\
  g_clients (MoqDestroyClient one_client 1) = g_clients Plugin_init /\
  g_nextClientId (MoqDestroyClient one_client 1) = 2.
Proof.
  assert (Hfree : g_clients Plugin_init !! g_nextClientId Plugin_init = None)
    by apply lookup_empty.
  split; [exact Hfree|].
  exact (proj2 (proj2 (proj2 (proj2
           (destroy_client_removes Plugin_init 1 "localhost" "stream" 100))))
           Hfree).
Defined.

Lemma calls_leave_other_sessions_aux (call : Call) (p : Plugin) (other : Z) :
  other <> call_handle call p ->
  g_clients (plugin_step call p) !! other = g_clients p !! other.
Proof.
  intros Hne.
  destruct call as [u s t|h|h|h w0 h0|h buffer n|h|h];
    cbn [plugin_step call_handle] in *.
  - cbn. by apply lookup_insert_ne.
  - by apply MoqDestroyClient_other.
  - unfold MoqUpdateClient.
    destruct (g_clients p !! h) as [c|]; [|done].
    destruct (update c) as [r c']. cbn. by apply lookup_insert_ne.
  - unfold MoqGetFrameInfo. by destruct (g_clients p !! h).
  - unfold MoqGetFrameData.
    destruct (g_clients p !! h) as [c|]; [|done].
    destruct (getFrameData c buffer n) as [[r buffer'] c']. cbn.
    by apply lookup_insert_ne.
  - unfold MoqGetConnectionStatus. by destruct (g_clients p !! h).
  - cbn. by apply lookup_alter_ne.
Qed.

(** X6: sessions are isolated.  Over any run of calls, host calls on
    any handles and steps of any workers, the session registered under a
    handle that none of the calls works on is exactly as it was before
    the run, and a handle that was free and is not worked on stays free
    (for [MoqCreateClient] the handle worked on is the one it returns). *)
Theorem calls_leave_other_sessions (calls : list Call) (p : Plugin)
    (other : Z) :
  other ∉ handles_of_run calls p ->
  g_clients (plugin_run calls p) !! other = g_clients p !! other.
Proof.
  revert p. induction calls as [|call calls IH]; intros p Hother; [done|].
  cbn [handles_of_run] in Hother.
  apply not_elem_of_cons in Hother as [Hne Hrest].
  cbn [plugin_run foldl]. fold (plugin_run calls (plugin_step call p)).
  rewrite (IH _ Hrest).
  by apply calls_leave_other_sessions_aux.
Qed.

(** A second client is created, its worker connects and it is polled and
    destroyed: client 1 is still in its initial state. *)
Lemma calls_leave_other_sessions_witness :
  let calls := [CallCreate "b" "s" 100; CallWorker 2; CallWorker 2;
                CallWorker 2; CallUpdate 2; CallDestroy 2] in
  (1 ∉ handles_of_run calls one_client) /\
  g_clients (plugin_run calls one_client) !! 1
  = Some (MoqClientImpl_new "localhost" "stream" 100).
Proof.
  intros calls.
  assert (Hother : 1 ∉ handles_of_run calls one_client).
  { change (handles_of_run calls one_client) with [2; 2; 2; 2; 2; 2].
    rewrite !not_elem_of_cons. repeat split; try discriminate.
    apply not_elem_of_nil. }
  split; [exact Hother|].
  rewrite (calls_leave_other_sessions calls one_client 1 Hother).
  reflexivity.
Defined.

(** Every session in the registry is in a state a session can reach. *)
Lemma registered_reachable calls : forall p,
  (forall client c, g_clients p !! client = Some c -> reachable c) ->
  forall client c,
    g_clients (plugin_run calls p) !! client = Some c -> reachable c.
Proof.
  induction calls as [|call calls IH]; intros p Hp; [exact Hp|].
  cbn [plugin_run foldl]. fold (plugin_run calls (plugin_step call p)).
  apply IH. clear IH. intros client c.
  destruct (decide (client = call_handle call p)) as [->|Hne].
  2: { rewrite calls_leave_other_sessions_aux by done. apply Hp. }
  destruct call as [u s t|h|h|h w0 h0|h buffer n|h|h];
    cbn [plugin_step call_handle].
  - cbn. rewrite lookup_insert_eq. intros [= <-]. constructor.
  - by rewrite destroyed_handle_absent.
  - unfold MoqUpdateClient.
    destruct (g_clients p !! h) as [c0|] eqn:Hh; [|cbn [snd]; by rewrite Hh].
    pose proof (reachable_step EUpdate c0 (Hp _ _ Hh)) as Hstep.
    cbn [step] in Hstep.
    destruct (update c0) as [r c']. cbn.
    rewrite lookup_insert_eq. by intros [= <-].
  - unfold MoqGetFrameInfo.
    destruct (g_clients p !! h) eqn:Hh; cbn; apply Hp.
  - unfold MoqGetFrameData.
    destruct (g_clients p !! h) as [c0|] eqn:Hh; [|cbn [snd]; by rewrite Hh].
    pose proof (reachable_step (EGetFrameData buffer n) c0 (Hp _ _ Hh))
      as Hstep.
    cbn [step] in Hstep.
    destruct (getFrameData c0 buffer n) as [[r buffer'] c']. cbn.
    rewrite lookup_insert_eq. by intros [= <-].
  - unfold MoqGetConnectionStatus.
    destruct (g_clients p !! h) eqn:Hh; cbn; apply Hp.
  - cbn. rewrite lookup_alter_eq.
    destruct (g_clients p !! h) as [c0|] eqn:Hh; [|done].
    cbn. intros [= <-]. apply (reachable_step EWorker). by eapply Hp.
Qed.

(** X7: in any state the plugin reaches from its initial one, the code
    never reports an error for a registered client: [MoqUpdateClient]
    returns true exactly when the handle is registered, and
    [MoqGetConnectionStatus] returns 0, 1 or 2 for a registered handle and
    -1 exactly when the handle is not registered. *)
Theorem update_true_iff_registered (calls : list Call) (client : Z) :
  let p := plugin_run calls Plugin_init in
  (fst (MoqUpdateClient p client) = true
   <-> is_Some (g_clients p !! client)) /\
  (fst (MoqGetConnectionStatus p client) = -1
   <-> g_clients p !! client = None) /\
  (is_Some (g_clients p !! client) ->
   fst (MoqGetConnectionStatus p client) = 0 \/
   fst (MoqGetConnectionStatus p client) = 1 \/
   fst (MoqGetConnectionStatus p client) = 2).
Proof.
  intros p. unfold MoqUpdateClient, MoqGetConnectionStatus.
  destruct (g_clients p !! client) as [c|] eqn:Hreg.
  - assert (Hc : reachable c).
    { apply (registered_reachable calls Plugin_init) with client;
        [|exact Hreg].
      intros h c0 Hc0. by rewrite fresh_plugin_absent in Hc0. }
    pose proof (status_range c (reachable_inv c Hc)) as Hst.
    assert (Hupd : fst (update c) = true).
    { unfold update.
      destruct (frameQueue_ c); cbn; apply Z.geb_le; lia. }
    destruct (update c) as [r c']. cbn in *.
    unfold getConnectionStatus.
    split; [split; [eauto|done]|].
    split; [split; [lia|done]|done].
  - cbn. split; [split; [done|by intros [? ?]]|].
    split; [done|by intros [? ?]].
Qed.

Lemma update_true_iff_registered_witness :
  is_Some (g_clients (plugin_run [CallCreate "localhost" "stream" 100;
                                  CallWorker 1]
                        Plugin_init) !! 1) /\
  fst (MoqGetConnectionStatus
         (plugin_run [CallCreate "localhost" "stream" 100; CallWorker 1]
            Plugin_init) 1) <> -1.
Proof.
  pose proof (update_true_iff_registered
                [CallCreate "localhost" "stream" 100; CallWorker 1] 1)
    as (_ & Hstatus & Hrange).
  assert (Hreg : is_Some
                   (g_clients
                      (plugin_run [CallCreate "localhost" "stream" 100;
                                   CallWorker 1] Plugin_init) !! 1))
    by (eexists; reflexivity).
  split; [exact Hreg|].
  destruct (Hrange Hreg) as [H|[H|H]]; rewrite H; discriminate.
Defined.

(** ** The queue between worker and host *)

Lemma current_frame_last_drained tr : forall c,
  currentFrame_ (run tr c)
  = default (currentFrame_ c) (last (drained tr c)).
Proof.
  induction tr as [|e tr IH]; intros c; [reflexivity|].
  cbn [run foldl]. fold (run tr (step e c)). rewrite IH.
  destruct e; cbn [drained step]; try reflexivity.
  - (* the worker *)
    f_equal. unfold workerFunction_step, push_if_room.
    destruct (workerThread_ c); try reflexivity.
    destruct (running_ c); try reflexivity.
    by destruct (length (frameQueue_ c) <? 5)%nat.
  - (* update *)
    unfold update.
    destruct (frameQueue_ c) as [|front rest]; [reflexivity|].
    cbn [snd currentFrame_ set_hasNewFrame set_frameQueue set_currentFrame].
    rewrite last_cons.
    by destruct (last (drained tr _)).
  - (* getFrameData *)
    f_equal.
    by destruct (getFrameData_cases c buffer bufferSize)
      as [->|(_ & _ & _ & ->)].
Qed.

Lemma unread_frame_was_drained tr : forall c,
  hasNewFrame_ c = false ->
  hasNewFrame_ (run tr c) = true -> drained tr c <> [].
Proof.
  induction tr as [|e tr IH]; intros c Hread Hnew.
  { cbn in Hnew. congruence. }
  cbn [run foldl] in Hnew. fold (run tr (step e c)) in Hnew.
  destruct (decide (e = EUpdate)) as [->|He].
  - cbn [drained].
    destruct (frameQueue_ c) as [|front rest] eqn:Hq; [|done].
    apply IH; [|done]. cbn [step]. rewrite (update_empty c Hq). done.
  - assert (Hd : drained (e :: tr) c = drained tr (step e c))
      by by destruct e.
    rewrite Hd. apply IH; [|done]. by apply step_keeps_consumed.
Qed.

(** X8: the queue is first in, first out and loses nothing it accepted.
    Over any run of a session, the frames the worker pushed are, in push
    order, the frames [update] drained followed by the frames still
    queued; the current-frame slot holds the frame drained last (the
    empty default frame before the first drain); and the unread flag is
    only ever set when a frame has been drained. *)
Theorem queue_delivers_in_order (tr : list Event)
    (serverUrl streamPath : string) (targetLatencyMs : Z) :
  let c := MoqClientImpl_new serverUrl streamPath targetLatencyMs in
  pushed tr c = drained tr c ++ frameQueue_ (run tr c) /\
  currentFrame_ (run tr c)
  = default DecodedFrame_default (last (drained tr c)) /\
  (hasNewFrame_ (run tr c) = true -> drained tr c <> []).
Proof.
  intros c.
  split; [exact (queue_fifo tr c)|].
  split; [exact (current_frame_last_drained tr c)|].
  by apply unread_frame_was_drained.
Qed.

Lemma queue_delivers_in_order_witness :
  hasNewFrame_ (run [EWorker; EWorker; EWorker; EUpdate]
                  (MoqClientImpl_new "localhost" "stream" 100)) = true /\
  drained [EWorker; EWorker; EWorker; EUpdate]
    (MoqClientImpl_new "localhost" "stream" 100) <> [].
Proof.
  split; [reflexivity|].
  exact (proj2 (proj2 (queue_delivers_in_order
                         [EWorker; EWorker; EWorker; EUpdate]
                         "localhost" "stream" 100)) eq_refl).
Defined.

(** X9: for as long as the worker has taken at most 128849 steps (its two
    connection steps and the frames 0 to 128846), the timestamps of the
    frames it pushed and the timestamps of the frames the host drained
    are strictly increasing, for every interleaving of calls and however
    many frames were dropped at a full queue. *)
Theorem timestamps_increase_at_first (tr : list Event)
    (serverUrl streamPath : string) (targetLatencyMs : Z) :
  Z.of_nat (worker_steps tr) <= 128849 ->
  strictly_increasing
    (timestamp <$>
       pushed tr (MoqClientImpl_new serverUrl streamPath targetLatencyMs)) /\
  strictly_increasing
    (timestamp <$>
       drained tr (MoqClientImpl_new serverUrl streamPath targetLatencyMs)).
Proof.
  intros Hsteps.
  exact (timestamps_increase_before_overflow tr serverUrl streamPath
           targetLatencyMs Hsteps).
Qed.

(** Three rounds of produce and poll. *)
Lemma timestamps_increase_at_first_witness :
  Z.of_nat (worker_steps (steady_trace 3)) <= 128849 /\
  strictly_increasing
    (timestamp <$>
       drained (steady_trace 3) (MoqClientImpl_new "localhost" "stream" 100)).
Proof.
  assert (Hsteps : Z.of_nat (worker_steps (steady_trace 3)) <= 128849)
    by (cbn; lia).
  split; [exact Hsteps|].
  exact (proj2 (timestamps_increase_at_first (steady_trace 3)
                  "localhost" "stream" 100 Hsteps)).
Defined.

Lemma unpolled_state n :
  Z.of_nat n <= INT_MAX ->
  forall serverUrl streamPath targetLatencyMs,
  let c := run (unpolled_trace n)
             (MoqClientImpl_new serverUrl streamPath targetLatencyMs) in
  workerThread_ c = InLoop (Z.of_nat n) /\
  running_ c = true /\
  hasNewFrame_ c = false /\
  frameQueue_ c = generate_frame <$> seqZ 0 (Z.of_nat (n `min` 5)).
Proof.
  unfold INT_MAX. intros Hn serverUrl streamPath targetLatencyMs.
  cbv zeta.
  induction n as [|n IH]; [by repeat split|].
  destruct IH as (Hw & Hrun & Hnew & Hq); [lia|].
  unfold unpolled_trace in *.
  change (2 + S n)%nat with (S (2 + n)).
  rewrite replicate_S_end, run_snoc. cbn [step].
  set (c := run (replicate (2 + n) EWorker) _) in *.
  rewrite (workerFunction_step_iteration c _ Hw Hrun).
  unfold push_if_room. rewrite Hq, length_fmap, length_seqZ, Nat2Z.id.
  rewrite to_int_small by (unfold INT_MIN, INT_MAX; lia).
  destruct (Nat.ltb_spec (n `min` 5) 5) as [Hlt|Hge].
  - cbn [workerThread_ running_ hasNewFrame_ frameQueue_ set_workerThread
         set_frameQueue].
    split; [f_equal; lia|]. split; [done|]. split; [done|].
    replace (S n `min` 5)%nat with (S n) by lia.
    replace (n `min` 5)%nat with n by lia.
    rewrite seqZ_S, fmap_app. cbn [fmap list_fmap]. by rewrite Z.add_0_l.
  - cbn [workerThread_ running_ hasNewFrame_ frameQueue_ set_workerThread].
    split; [f_equal; lia|]. split; [done|]. split; [done|].
    rewrite Hq. do 3 f_equal. lia.
Qed.

(** X10: a worker whose host does not poll keeps the five oldest frames
    and drops every newer one.  After [n] iterations the queue holds the
    frames 0 to [min n 5 - 1] and [frameCount] is [n]; when the host then
    polls once, it gets frame 0, and the next frame the worker queues is
    frame [n]: the frames 5 to [n - 1] are never delivered. *)
Theorem unpolled_queue_keeps_oldest (n : nat)
    (serverUrl streamPath : string) (targetLatencyMs : Z) :
  Z.of_nat n <= INT_MAX ->
  let c := run (unpolled_trace n)
             (MoqClientImpl_new serverUrl streamPath targetLatencyMs) in
  frameQueue_ c = generate_frame <$> seqZ 0 (Z.of_nat (n `min` 5)) /\
  workerThread_ c = InLoop (Z.of_nat n) /\
  ((5 <= n)%nat ->
   currentFrame_ (run [EUpdate] c) = generate_frame 0 /\
   frameQueue_ (run [EUpdate; EWorker] c)
   = (generate_frame <$> [1; 2; 3; 4]) ++ [generate_frame (Z.of_nat n)]).
Proof.
  intros Hn c.
  destruct (unpolled_state n Hn serverUrl streamPath targetLatencyMs)
    as (Hw & Hrun & _ & Hq).
  fold c in Hw, Hrun, Hq.
  split; [exact Hq|]. split; [exact Hw|].
  intros H5. replace (n `min` 5)%nat with 5%nat in Hq by lia.
  change (seqZ 0 (Z.of_nat 5)) with [0; 1; 2; 3; 4] in Hq.
  cbn [fmap list_fmap] in Hq.
  cbn [run foldl step]. unfold update. rewrite Hq.
  cbn [snd currentFrame_ set_hasNewFrame set_frameQueue set_currentFrame].
  split; [reflexivity|].
  rewrite workerFunction_step_frameQueue.
  cbn [workerThread_ running_ frameQueue_ set_hasNewFrame set_frameQueue
       set_currentFrame].
  rewrite Hw, Hrun. reflexivity.
Qed.

(** A thousand unpolled iterations: the queue holds frames 0 to 4. *)
Lemma unpolled_queue_keeps_oldest_witness :
  Z.of_nat 1000 <= INT_MAX /\
  frameQueue_ (run (unpolled_trace 1000)
                 (MoqClientImpl_new "localhost" "stream" 100))
  = generate_frame <$> [0; 1; 2; 3; 4].
Proof.
  assert (Hn : Z.of_nat 1000 <= INT_MAX) by (unfold INT_MAX; lia).
  split; [exact Hn|].
  exact (proj1 (unpolled_queue_keeps_oldest 1000 "localhost" "stream" 100
                  Hn)).
Defined.

(** ** Shutting a session down *)

Lemma step_running_false e c :
  running_ c = false -> running_ (step e c) = false.
Proof.
  intros Hstop. destruct e; cbn [step]; try done.
  - unfold workerFunction_step. rewrite Hstop.
    by destruct (workerThread_ c).
  - unfold update. by destruct (frameQueue_ c).
  - by destruct (getFrameData_cases c buffer bufferSize)
      as [->|(_ & _ & _ & ->)].
Qed.

Lemma run_running_false tr : forall c,
  running_ c = false -> running_ (run tr c) = false.
Proof.
  induction tr as [|e tr IH]; intros c Hstop; [done|].
  cbn [run foldl]. apply IH. by apply step_running_false.
Qed.

Lemma pushed_stopped tr : forall c,
  running_ c = false -> pushed tr c = [].
Proof.
  induction tr as [|e tr IH]; intros c Hstop; [done|].
  pose proof (IH _ (step_running_false e c Hstop)) as Hrest.
  destruct e; cbn [pushed]; try exact Hrest.
  rewrite Hstop. cbn [andb]. by destruct (workerThread_ c).
Qed.

Lemma steps_to_finish_run tr : forall c,
  running_ c = false ->
  steps_to_finish (workerThread_ (run tr c))
  = (steps_to_finish (workerThread_ c) - worker_steps tr)%nat.
Proof.
  induction tr as [|e tr IH]; intros c Hstop.
  { cbn. lia. }
  cbn [run foldl]. fold (run tr (step e c)).
  rewrite IH by by apply step_running_false.
  destruct (decide (e = EWorker)) as [->|He].
  - cbn [worker_steps step]. unfold workerFunction_step. rewrite Hstop.
    destruct (workerThread_ c) eqn:Hw;
      cbn [workerThread_ set_workerThread set_connectionStatus
           steps_to_finish negb]; rewrite ?Hw;
      cbn [steps_to_finish]; lia.
  - rewrite step_workerThread by done.
    by destruct e.
Qed.

(** X11: once the destructor has set [running_] to false, the worker
    pushes no frame any more, whatever it was doing and whatever else
    happens; the queue only loses the frames that are drained; [running_]
    stays false; and after at most three of its own steps (it still
    writes the two connection statuses if it had not yet) the worker has
    left its loop, which is what lets the destructor's [join] return. *)
Theorem worker_stops_after_destructor (c : MoqClientImpl) (tr : list Event) :
  pushed tr (destructor_stop c) = [] /\
  running_ (run tr (destructor_stop c)) = false /\
  frameQueue_ c
  = drained tr (destructor_stop c)
    ++ frameQueue_ (run tr (destructor_stop c)) /\
  ((3 <= worker_steps tr)%nat ->
   workerThread_ (run tr (destructor_stop c)) = Finished /\
   workerFunction_step (run tr (destructor_stop c))
   = run tr (destructor_stop c)).
Proof.
  assert (Hstop : running_ (destructor_stop c) = false) by reflexivity.
  pose proof (pushed_stopped tr _ Hstop) as Hpushed.
  split; [exact Hpushed|].
  split; [by apply run_running_false|].
  split.
  - pose proof (queue_fifo tr (destructor_stop c)) as Hfifo.
    rewrite Hpushed, app_nil_r in Hfifo. exact Hfifo.
  - intros H3.
    pose proof (steps_to_finish_run tr _ Hstop) as Hrank.
    assert (Hfin : workerThread_ (run tr (destructor_stop c)) = Finished).
    { destruct (workerThread_ (run tr (destructor_stop c)));
        destruct (workerThread_ (destructor_stop c));
        cbn in Hrank; (reflexivity || lia). }
    split; [exact Hfin|].
    unfold workerFunction_step. by rewrite Hfin.
Qed.

(** The saturated session is stopped; the host polls once more while the
    worker runs to its end. *)
Lemma worker_stops_after_destructor_witness :
  (3 <= worker_steps [EWorker; EUpdate; EWorker; EWorker])%nat /\
  workerThread_
    (run [EWorker; EUpdate; EWorker; EWorker]
       (destructor_stop saturated_session)) = Finished /\
  pushed [EWorker; EUpdate; EWorker; EWorker]
    (destructor_stop saturated_session) = [].
Proof.
  assert (H3 : (3 <= worker_steps [EWorker; EUpdate; EWorker; EWorker])%nat)
    by (cbn; lia).
  destruct (worker_stops_after_destructor saturated_session
              [EWorker; EUpdate; EWorker; EWorker])
    as (Hpushed & _ & _ & Hfin).
  split; [exact H3|]. split; [exact (proj1 (Hfin H3))|exact Hpushed].
Defined.

(** ** A host that keeps up *)

Lemma frame_counts_seqZ n : forall frameCount,
  INT_MIN <= frameCount ->
  frameCount + Z.of_nat n <= INT_MAX + 1 ->
  frame_counts n frameCount = seqZ frameCount (Z.of_nat n).
Proof.
  unfold INT_MIN, INT_MAX.
  induction n as [|n IH]; intros frameCount Hlo Hhi; [done|].
  cbn [frame_counts]. rewrite seqZ_cons by lia.
  f_equal. destruct n as [|n]; [done|].
  rewrite to_int_small by (unfold INT_MIN, INT_MAX; lia).
  rewrite IH by lia. f_equal; lia.
Qed.

(** X12: when the host calls [update] after every iteration of the
    worker, nothing is dropped: over [n] such rounds the frames drained
    are exactly the frames produced, frame 0 to frame [n - 1] in order,
    and the queue is empty at the end. *)
Theorem steady_polling_delivers_all (n : nat)
    (serverUrl streamPath : string) (targetLatencyMs : Z) :
  Z.of_nat n <= INT_MAX ->
  let c := MoqClientImpl_new serverUrl streamPath targetLatencyMs in
  pushed (steady_trace n) c = generate_frame <$> seqZ 0 (Z.of_nat n) /\
  drained (steady_trace n) c = generate_frame <$> seqZ 0 (Z.of_nat n) /\
  frameQueue_ (run (steady_trace n) c) = [].
Proof.
  intros Hn c.
  destruct (steady_trace_frames n serverUrl streamPath targetLatencyMs)
    as [Hp Hd].
  fold c in Hp, Hd.
  rewrite frame_counts_seqZ in Hp, Hd by (unfold INT_MIN, INT_MAX in *; lia).
  split; [exact Hp|]. split; [exact Hd|].
  pose proof (queue_fifo (steady_trace n) c) as Hfifo.
  change (frameQueue_ c) with (@nil DecodedFrame) in Hfifo.
  rewrite app_nil_l, Hp, Hd in Hfifo.
  rewrite <- (app_nil_r (generate_frame <$> _)) in Hfifo at 1.
  by apply app_inv_head in Hfifo.
Qed.

Lemma steady_polling_delivers_all_witness :
  Z.of_nat 100 <= INT_MAX /\
  drained (steady_trace 100) (MoqClientImpl_new "localhost" "stream" 100)
  = generate_frame <$> seqZ 0 (Z.of_nat 100).
Proof.
  assert (Hn : Z.of_nat 100 <= INT_MAX) by (unfold INT_MAX; lia).
  split; [exact Hn|].
  exact (proj1 (proj2 (steady_polling_delivers_all 100 "localhost" "stream"
                         100 Hn))).
Defined.

(** ** The current-frame slot and the worker *)

Lemma workerFunction_step_currentFrame c :
  currentFrame_ (workerFunction_step c) = currentFrame_ c.
Proof.
  unfold workerFunction_step, push_if_room.
  destruct (workerThread_ c); [done|done| |done].
  destruct (running_ c); [|done].
  by destruct (length (frameQueue_ c) <? 5)%nat.
Qed.

Lemma leaves_slot_run tr : forall c,
  forallb leaves_slot tr = true ->
  currentFrame_ (run tr c) = currentFrame_ c /\
  hasNewFrame_ (run tr c) = hasNewFrame_ c.
Proof.
  induction tr as [|e tr IH]; intros c Htr; [done|].
  cbn [forallb] in Htr. apply andb_true_iff in Htr as [He Htr].
  cbn [run foldl]. fold (run tr (step e c)).
  destruct (IH (step e c) Htr) as [-> ->].
  destruct e; try discriminate; cbn [step]; try done.
  split; [apply workerFunction_step_currentFrame|
          apply workerFunction_step_hasNewFrame].
Qed.

(** X13: the worker never touches the current-frame slot.  Over any
    activity that contains no [update] and no [getFrameData] (worker
    iterations, pushes into a full or a free queue, status and info
    queries, the stop request) the current frame and the unread flag stay
    as they were, so an unread frame is still read in full afterwards:
    [getFrameInfo] reports its 640 by 480 and [getFrameData] with room for
    it returns its bytes. *)
Theorem worker_leaves_current_frame (c : MoqClientImpl) (tr : list Event)
    (buffer : list Z) (bufferSize : Z) :
  reachable c ->
  forallb leaves_slot tr = true ->
  currentFrame_ (run tr c) = currentFrame_ c /\
  hasNewFrame_ (run tr c) = hasNewFrame_ c /\
  (hasNewFrame_ c = true ->
   1228800 <= bufferSize ->
   getFrameInfo (run tr c) 0 0 = (true, 640, 480) /\
   getFrameData (run tr c) buffer bufferSize
   = (true,
      data (currentFrame_ c) ++ drop (length (data (currentFrame_ c))) buffer,
      set_hasNewFrame false (run tr c))).
Proof.
  intros Hc Htr.
  destruct (leaves_slot_run tr c Htr) as [Hcur Hflag].
  split; [exact Hcur|]. split; [exact Hflag|].
  intros Hnew Hsize.
  pose proof (reachable_run tr c Hc) as Hc'.
  assert (Hnew' : hasNewFrame_ (run tr c) = true) by by rewrite Hflag.
  destruct (produced_size _
              (inv_current_produced c (reachable_inv c Hc) Hnew))
    as (Hw & Hh & _ & Hlen).
  split.
  - unfold getFrameInfo. rewrite Hnew', Hcur, Hw, Hh. reflexivity.
  - rewrite <- Hcur.
    apply getFrameData_sufficient; [exact Hc'|exact Hnew'|].
    rewrite Hcur. lia.
Qed.

(** The polled session after a failed read and four more worker
    iterations: its frame 0 is still the current frame. *)
Lemma worker_leaves_current_frame_witness :
  reachable polled_session /\
  forallb leaves_slot [EWorker; EWorker; EGetFrameInfo 0 0; EWorker; EWorker]
  = true /\
  currentFrame_
    (run [EWorker; EWorker; EGetFrameInfo 0 0; EWorker; EWorker]
       polled_session)
  = generate_frame 0.
Proof.
  split; [exact polled_session_reachable|]. split; [reflexivity|].
  rewrite (proj1 (worker_leaves_current_frame polled_session
                    [EWorker; EWorker; EGetFrameInfo 0 0; EWorker; EWorker]
                    [] 0 polled_session_reachable eq_refl)).
  exact polled_session_current.
Defined.

(** ** Lock order *)

(** X14: the two mutexes are always taken in the same order.  In the
    worker, in every exported function and wherever a session's
    destructor runs, a statement runs with no lock, with one of the two,
    or with [mutex_] taken inside [g_clientsMutex]: [g_clientsMutex] is
    never acquired while [mutex_] is held and no mutex is acquired twice.
    The destructor always asks the worker to stop with [mutex_] held and
    always joins it with [mutex_] released, so the worker can still take
    [mutex_] to see the request: inside an exported function
    ([MoqDestroyClient], or [MoqCreateClient] replacing a session) it
    does so under [g_clientsMutex], at the destruction of the static
    [g_clients] with no other lock. *)
Theorem lock_order (code : list Code) (w : Work) (held : list Mutex) :
  In code all_code ->
  In (w, held) (locks_held_in code) ->
  (held = [] \/ held = [mutex_] \/ held = [g_clientsMutex] \/
   held = [mutex_; g_clientsMutex]) /\
  (w = Join -> ~ In mutex_ held) /\
  (w = StopRequest -> In mutex_ held) /\
  (In code (MoqCreateClient_replacing_code :: exported_code) ->
   (w = Join -> held = [g_clientsMutex]) /\
   (w = StopRequest -> held = [mutex_; g_clientsMutex])) /\
  (code = static_destruction_code ->
   (w = Join -> held = []) /\
   (w = StopRequest -> held = [mutex_])).
Proof.
  intros Hcode Hin.
  split; [|split; [|split; [|split]]].
  - unfold all_code, exported_code in Hcode. cbn [In] in Hcode.
    repeat destruct Hcode as [<-|Hcode]; try destruct Hcode;
      cbn in Hin;
      repeat destruct Hin as [[= <- <-]|Hin]; try destruct Hin; auto 10.
  - intros ->. unfold all_code, exported_code in Hcode. cbn [In] in Hcode.
    repeat destruct Hcode as [<-|Hcode]; try destruct Hcode;
      cbn in Hin;
      repeat destruct Hin as [[= <-]|Hin]; try destruct Hin;
      intros Hm; cbn [In] in Hm; intuition discriminate.
  - intros ->. unfold all_code, exported_code in Hcode. cbn [In] in Hcode.
    repeat destruct Hcode as [<-|Hcode]; try destruct Hcode;
      cbn in Hin;
      repeat destruct Hin as [[= <-]|Hin]; try destruct Hin;
      cbn [In]; auto.
  - clear Hcode. intros Hexp. unfold exported_code in Hexp.
    cbn [In] in Hexp.
    repeat destruct Hexp as [<-|Hexp]; try destruct Hexp;
      cbn in Hin;
      repeat destruct Hin as [[= <- <-]|Hin]; try destruct Hin;
      split; intros [=]; reflexivity.
  - clear Hcode. intros ->. cbn in Hin.
    repeat destruct Hin as [[= <- <-]|Hin]; try destruct Hin;
      split; intros [=]; reflexivity.
Qed.

(** The join of [MoqDestroyClient] and the join at static destruction. *)
Lemma lock_order_witness :
  In MoqDestroyClient_code all_code /\
  In (Join, [g_clientsMutex]) (locks_held_in MoqDestroyClient_code) /\
  In static_destruction_code all_code /\
  In (Join, []) (locks_held_in static_destruction_code) /\
  ~ In mutex_ [g_clientsMutex] /\
  ~ In mutex_ (@nil Mutex).
Proof.
  assert (Hcode : In MoqDestroyClient_code all_code).
  { unfold all_code, exported_code. cbn [In]. auto 10. }
  assert (Hjoin : In (Join, [g_clientsMutex])
                     (locks_held_in MoqDestroyClient_code)).
  { cbn. auto 10. }
  assert (Hstatic : In static_destruction_code all_code).
  { unfold all_code. cbn [In]. auto. }
  assert (Hjoin' : In (Join, []) (locks_held_in static_destruction_code)).
  { cbn. auto 10. }
  split; [exact Hcode|]. split; [exact Hjoin|].
  split; [exact Hstatic|]. split; [exact Hjoin'|].
  split.
  - exact (proj1 (proj2 (lock_order _ _ _ Hcode Hjoin)) eq_refl).
  - exact (proj1 (proj2 (lock_order _ _ _ Hstatic Hjoin')) eq_refl).
Defined.

(** ** A client from its creation to its first poll *)

Lemma worker_calls_session k : forall p client c,
  g_clients p !! client = Some c ->
  g_clients (plugin_run (replicate k (CallWorker client)) p) !! client
  = Some (run (replicate k EWorker) c).
Proof.
  induction k as [|k IH]; intros p client c Hreg; [exact Hreg|].
  cbn [replicate plugin_run run foldl].
  fold (plugin_run (replicate k (CallWorker client))
          (plugin_step (CallWorker client) p)).
  fold (run (replicate k EWorker) (step EWorker c)).
  apply IH. cbn [plugin_step set_clients g_clients step].
  rewrite lookup_alter_eq, Hreg. reflexivity.
Qed.

(** A session whose worker has taken [k] steps while the host called
    nothing: the status is 0, 1, then 2; no frame is marked unread; the
    queue is empty until the third step. *)
Lemma worker_only_state k serverUrl streamPath targetLatencyMs :
  Z.of_nat k <= INT_MAX ->
  let c := run (replicate k EWorker)
             (MoqClientImpl_new serverUrl streamPath targetLatencyMs) in
  hasNewFrame_ c = false /\
  connectionStatus_ c = Z.of_nat (k `min` 2) /\
  ((k < 3)%nat -> frameQueue_ c = []) /\
  ((3 <= k)%nat -> exists rest, frameQueue_ c = generate_frame 0 :: rest).
Proof.
  unfold INT_MAX. intros Hk. cbv zeta.
  destruct k as [|[|n]].
  - split; [reflexivity|]. split; [reflexivity|].
    split; [reflexivity|lia].
  - split; [reflexivity|]. split; [reflexivity|].
    split; [reflexivity|lia].
  - assert (Hn : Z.of_nat n <= INT_MAX) by (unfold INT_MAX; lia).
    destruct (unpolled_state n Hn serverUrl streamPath targetLatencyMs)
      as (Hw & _ & Hnew & Hq).
    unfold unpolled_trace in Hw, Hnew, Hq.
    change (2 + n)%nat with (S (S n)) in Hw, Hnew, Hq.
    split; [exact Hnew|]. split.
    + rewrite (inv_status _ (reachable_inv _
                 (reachable_run (replicate (S (S n)) EWorker) _
                    (reachable_new serverUrl streamPath targetLatencyMs)))).
      rewrite Hw. cbn [status_at]. lia.
    + rewrite Hq. split.
      * intros Hlt. assert (n = 0%nat) as -> by lia. reflexivity.
      * intros Hge. destruct n as [|n]; [lia|].
        replace (Z.of_nat (S n `min` 5))
          with (Z.succ (Z.of_nat (n `min` 4))) by lia.
        rewrite seqZ_cons by lia. cbn [fmap list_fmap]. eauto.
Qed.

(** X3: [MoqCreateClient] returns the current value of [g_nextClientId],
    registers a new session under it and leaves every other handle as it
    was.  The worker of the new session runs from then on: whatever
    number [k] of steps it has taken by the host's next call on the
    handle, [MoqGetConnectionStatus] returns [min k 2] (0, then 1, then
    2), [MoqGetFrameInfo] and [MoqGetFrameData] return false and write
    nothing (no frame can be read before the first [update], however many
    the worker has queued), and [MoqUpdateClient] returns true; after that
    first [update] a frame is there to be read, 640 by 480, exactly when
    the worker had taken at least three steps. *)
Theorem create_client_registers (p : Plugin) (serverUrl streamPath : string)
    (targetLatencyMs : Z) (k : nat) (w h : Z) (buffer : list Z)
    (bufferSize : Z) :
  Z.of_nat k <= INT_MAX ->
  exists p0 pk,
    MoqCreateClient p serverUrl streamPath targetLatencyMs
    = (g_nextClientId p, p0) /\
    (forall other, other <> g_nextClientId p ->
                   g_clients p0 !! other = g_clients p !! other) /\
    pk = plugin_run (replicate k (CallWorker (g_nextClientId p))) p0 /\
    g_clients pk !! g_nextClientId p
    = Some (run (replicate k EWorker)
              (MoqClientImpl_new serverUrl streamPath targetLatencyMs)) /\
    MoqGetConnectionStatus pk (g_nextClientId p)
    = (Z.of_nat (k `min` 2), pk) /\
    MoqGetFrameInfo pk (g_nextClientId p) w h = (false, w, h, pk) /\
    MoqGetFrameData pk (g_nextClientId p) buffer bufferSize
    = (false, buffer, pk) /\
    fst (MoqUpdateClient pk (g_nextClientId p)) = true /\
    fst (MoqGetFrameInfo (snd (MoqUpdateClient pk (g_nextClientId p)))
           (g_nextClientId p) w h)
    = if (3 <=? k)%nat then (true, 640, 480) else (false, w, h).
Proof.
  intros Hk.
  set (client := g_nextClientId p).
  set (c0 := MoqClientImpl_new serverUrl streamPath targetLatencyMs).
  set (p0 := snd (MoqCreateClient p serverUrl streamPath targetLatencyMs)).
  set (pk := plugin_run (replicate k (CallWorker client)) p0).
  set (c := run (replicate k EWorker) c0).
  assert (Hreg0 : g_clients p0 !! client = Some c0)
    by apply lookup_insert_eq.
  assert (Hreg : g_clients pk !! client = Some c)
    by exact (worker_calls_session k p0 client c0 Hreg0).
  destruct (worker_only_state k serverUrl streamPath targetLatencyMs Hk)
    as (Hnew & Hstatus & Hempty & Hfull).
  fold c0 in Hnew, Hstatus, Hempty, Hfull.
  fold c in Hnew, Hstatus, Hempty, Hfull.
  exists p0, pk.
  split; [reflexivity|].
  split; [intros other Hne; subst p0; cbn; by apply lookup_insert_ne|].
  split; [reflexivity|]. split; [exact Hreg|].
  unfold MoqGetConnectionStatus, MoqGetFrameInfo, MoqGetFrameData,
    MoqUpdateClient.
  rewrite Hreg.
  split; [unfold getConnectionStatus; by rewrite Hstatus|].
  split; [unfold getFrameInfo; by rewrite Hnew|].
  split.
  { rewrite (getFrameData_no_frame c buffer bufferSize Hnew).
    f_equal. apply Plugin_eq; [|reflexivity].
    cbn [set_clients g_clients]. by apply insert_id. }
  assert (Hst : 0 <= connectionStatus_ c) by lia.
  unfold update.
  destruct (Nat.leb_spec 3 k) as [Hge|Hlt].
  - destruct (Hfull Hge) as [rest Hq]. rewrite Hq.
    cbn [fst snd connectionStatus_ set_hasNewFrame set_frameQueue
         set_currentFrame set_clients g_clients].
    split; [apply Z.geb_le; exact Hst|].
    rewrite lookup_insert_eq. reflexivity.
  - rewrite (Hempty Hlt).
    cbn [fst snd set_clients g_clients].
    split; [apply Z.geb_le; exact Hst|].
    rewrite lookup_insert_eq. unfold getFrameInfo. by rewrite Hnew.
Qed.

(** The first client of a plugin, polled after its worker has connected
    and queued one frame. *)
Lemma create_client_registers_witness :
  Z.of_nat 3 <= INT_MAX /\
  MoqGetConnectionStatus
    (plugin_run (replicate 3 (CallWorker 1)) one_client) 1
  = (2, plugin_run (replicate 3 (CallWorker 1)) one_client) /\
  MoqGetFrameInfo (plugin_run (replicate 3 (CallWorker 1)) one_client) 1 0 0
  = (false, 0, 0, plugin_run (replicate 3 (CallWorker 1)) one_client) /\
  fst (MoqGetFrameInfo
         (snd (MoqUpdateClient
                 (plugin_run (replicate 3 (CallWorker 1)) one_client) 1))
         1 0 0)
  = (true, 640, 480).
Proof.
  assert (Hk : Z.of_nat 3 <= INT_MAX) by (unfold INT_MAX; lia).
  destruct (create_client_registers Plugin_init "localhost" "stream" 100 3
              0 0 [] 0 Hk)
    as (p0 & pk & Hcreate & _ & -> & _ & Hstatus & Hinfo & _ & _ & Hafter).
  injection Hcreate as <-.
  split; [exact Hk|]. split; [exact Hstatus|]. split; [exact Hinfo|].
  exact Hafter.
Defined.
